(** * HardwareBufferRenderer: the JNI binding of the off-screen renderer

    A shallow embedding of
    [libs/hwui/jni/android_graphics_HardwareBufferRenderer.cpp].

    The file is glue between the managed caller and the rendering engine.
    Its own logic is: the buffer-transform matrix, the float to 8-bit
    conversion of the shadow alphas, the wrapping of the completion
    consumer, and the creation and destruction of the native objects
    behind the [jlong] handles.  Native memory is a pair of finite maps
    from addresses to objects; what C++ leaves undefined is an explicit
    outcome. *)

From Stdlib Require Import ZArith QArith Qround Qpower Lia List Bool Ascii.
From Stdlib Require Import Floats.SpecFloat.
From stdpp Require Import gmap strings list fin_maps.

Local Open Scope Z_scope.

(* ===================================================================== *)
(** * Scalars *)
(* ===================================================================== *)

(** [jfloat] and [SkScalar] are IEEE-754 binary32 numbers: 24 bits of
    significand, infinities at exponent 128. *)
Definition float_prec : Z := 24.
Definition float_emax : Z := 128.

Definition jfloat : Type := spec_float.

(** The scalars that reach the matrix come from [jint] dimensions through
    [static_cast<SkScalar>], so they are whole numbers; a scalar is
    modelled by the integer it denotes.  Sums of such scalars (the only
    arithmetic [postTranslate] performs here is [0 + d]) are exact. *)
Abbreviation SkScalar := Z (only parsing).

(** The integer part of a float, toward zero: the value of a finite float
    is [m * 2^e] with the sign [s], and [Z.div] on a positive numerator
    rounds down.  Zero for the values that have no integer part. *)
Definition float_trunc (f : spec_float) : Z :=
  match f with
  | S754_finite s m e =>
      let a := if 0 <=? e then Z.pos m * 2 ^ e else Z.pos m / 2 ^ (- e) in
      if s then - a else a
  | _ => 0
  end.

(** [static_cast<SkScalar>(n)] for a [jint]: the nearest binary32 value,
    ties to even.  Every [jint] is below the overflow threshold. *)
Definition static_cast_SkScalar (n : Z) : SkScalar :=
  float_trunc (binary_normalize float_prec float_emax n 0 false).

(* ===================================================================== *)
(** * SkMatrix *)
(* ===================================================================== *)

(** Skia's 3x3 matrix, row major, with Skia's names for the nine cells. *)
Record SkMatrix : Type := mkSkMatrix {
  kMScaleX : SkScalar; kMSkewX  : SkScalar; kMTransX : SkScalar;
  kMSkewY  : SkScalar; kMScaleY : SkScalar; kMTransY : SkScalar;
  kMPersp0 : SkScalar; kMPersp1 : SkScalar; kMPersp2 : SkScalar
}.

(** Modelled from the spec: [SkMatrix()] of Skia (not under src/), the
    identity matrix. *)
Definition SkMatrix_I : SkMatrix :=
  mkSkMatrix 1 0 0
             0 1 0
             0 0 1.

(** Modelled from the spec: the sine and cosine Skia's [setRotate] uses
    (not under src/).  Skia snaps values within 1/4096 of zero to zero,
    so a right angle has sine and cosine in {-1, 0, 1}.  Only whole
    multiples of 90 degrees are in the model's domain; this file passes
    90, 180 and 270. *)
Definition SkScalarSinCosSnapToZero (degrees : Z) : SkScalar * SkScalar :=
  match (degrees / 90) mod 4 with
  | 1 => (1, 0)
  | 2 => (0, -1)
  | 3 => (-1, 0)
  | _ => (0, 1)
  end.

(** Modelled from the spec: [SkMatrix::setSinCos] (not under src/)
    overwrites the matrix with the rotation about the origin. *)
Definition setSinCos (sinV cosV : SkScalar) (_ : SkMatrix) : SkMatrix :=
  mkSkMatrix cosV (- sinV) 0
             sinV cosV     0
             0    0        1.

(** Modelled from the spec: [SkMatrix::setRotate(degrees)] (not under
    src/), "rotate about origin". *)
Definition setRotate (degrees : Z) (m : SkMatrix) : SkMatrix :=
  let '(s, c) := SkScalarSinCosSnapToZero degrees in setSinCos s c m.

Definition hasPerspective (m : SkMatrix) : bool :=
  negb ((kMPersp0 m =? 0) && (kMPersp1 m =? 0) && (kMPersp2 m =? 1)).

(** Modelled from the spec: [SkMatrix::setTranslate] (not under src/). *)
Definition setTranslate (dx dy : SkScalar) (_ : SkMatrix) : SkMatrix :=
  mkSkMatrix 1 0 dx
             0 1 dy
             0 0 1.

(** Matrix product [a * b]: as a map of points, [b] first and then [a]. *)
Definition SkMatrix_Concat (a b : SkMatrix) : SkMatrix :=
  mkSkMatrix
    (kMScaleX a * kMScaleX b + kMSkewX a * kMSkewY b + kMTransX a * kMPersp0 b)
    (kMScaleX a * kMSkewX b + kMSkewX a * kMScaleY b + kMTransX a * kMPersp1 b)
    (kMScaleX a * kMTransX b + kMSkewX a * kMTransY b + kMTransX a * kMPersp2 b)
    (kMSkewY a * kMScaleX b + kMScaleY a * kMSkewY b + kMTransY a * kMPersp0 b)
    (kMSkewY a * kMSkewX b + kMScaleY a * kMScaleY b + kMTransY a * kMPersp1 b)
    (kMSkewY a * kMTransX b + kMScaleY a * kMTransY b + kMTransY a * kMPersp2 b)
    (kMPersp0 a * kMScaleX b + kMPersp1 a * kMSkewY b + kMPersp2 a * kMPersp0 b)
    (kMPersp0 a * kMSkewX b + kMPersp1 a * kMScaleY b + kMPersp2 a * kMPersp1 b)
    (kMPersp0 a * kMTransX b + kMPersp1 a * kMTransY b + kMPersp2 a * kMPersp2 b).

(** Modelled from the spec: [SkMatrix::postTranslate] (not under src/),
    "then translate by".  Without perspective Skia adds the offsets to
    the translation cells in place; with perspective it multiplies by a
    translation on the left. *)
Definition postTranslate (dx dy : SkScalar) (m : SkMatrix) : SkMatrix :=
  if hasPerspective m then SkMatrix_Concat (setTranslate dx dy SkMatrix_I) m
  else mkSkMatrix (kMScaleX m) (kMSkewX m) (kMTransX m + dx)
                  (kMSkewY m) (kMScaleY m) (kMTransY m + dy)
                  (kMPersp0 m) (kMPersp1 m) (kMPersp2 m).

(** A point of the plane. *)
Definition SkPoint : Type := (SkScalar * SkScalar)%type.

(** Modelled from the spec: [SkMatrix::mapXY] (not under src/) on a
    matrix without perspective, the only kind built here. *)
Definition mapXY (m : SkMatrix) (p : SkPoint) : SkPoint :=
  (kMScaleX m * fst p + kMSkewX m * snd p + kMTransX m,
   kMSkewY m * fst p + kMScaleY m * snd p + kMTransY m).

(* ===================================================================== *)
(** * Logging *)
(* ===================================================================== *)

Inductive android_LogPriority : Type :=
  | ANDROID_LOG_WARN
  | ANDROID_LOG_ERROR
  | ANDROID_LOG_FATAL.

Record LogRecord : Type := mkLogRecord {
  log_priority : android_LogPriority;
  log_tag : string;
  log_message : string
}.

Definition LOG_TAG : string := "HardwareBufferRenderer".

(** [ALOGE] writes one record at error priority under [LOG_TAG]. *)
Definition ALOGE (msg : string) : LogRecord :=
  mkLogRecord ANDROID_LOG_ERROR LOG_TAG msg.

(* ===================================================================== *)
(** * The transform builder *)
(* ===================================================================== *)

(** The NDK's [android/native_window.h] is not under src/; these are its
    values: the two mirrors are bits 0 and 1, the quarter turn is bit 2,
    and the half turn is both mirrors. *)
Definition ANATIVEWINDOW_TRANSFORM_IDENTITY : Z := 0.
Definition ANATIVEWINDOW_TRANSFORM_MIRROR_HORIZONTAL : Z := 1.
Definition ANATIVEWINDOW_TRANSFORM_MIRROR_VERTICAL : Z := 2.
Definition ANATIVEWINDOW_TRANSFORM_ROTATE_90 : Z := 4.
Definition ANATIVEWINDOW_TRANSFORM_ROTATE_180 : Z := 3.
Definition ANATIVEWINDOW_TRANSFORM_ROTATE_270 : Z := 7.

Definition invalid_transform_message : string :=
  "Invalid transform provided. Transform should be validated fromthe java side. Leveraging identity transform as a fallback".

(** [createMatrixFromBufferTransform]: the matrix and the records the call
    writes to the log.  The [default] label logs and falls through to the
    identity label. *)
Definition createMatrixFromBufferTransform
    (width height : SkScalar) (transform : Z) : SkMatrix * list LogRecord :=
  let matrix := SkMatrix_I in
  if transform =? ANATIVEWINDOW_TRANSFORM_ROTATE_90 then
    (postTranslate width 0 (setRotate 90 matrix), [])
  else if transform =? ANATIVEWINDOW_TRANSFORM_ROTATE_180 then
    (postTranslate width height (setRotate 180 matrix), [])
  else if transform =? ANATIVEWINDOW_TRANSFORM_ROTATE_270 then
    (postTranslate 0 width (setRotate 270 matrix), [])
  else if transform =? ANATIVEWINDOW_TRANSFORM_IDENTITY then
    (matrix, [])
  else
    (matrix, [ALOGE invalid_transform_message]).

(** The orientations the builder has a label for. *)
Definition valid_transform (transform : Z) : bool :=
  (transform =? ANATIVEWINDOW_TRANSFORM_IDENTITY)
  || (transform =? ANATIVEWINDOW_TRANSFORM_ROTATE_90)
  || (transform =? ANATIVEWINDOW_TRANSFORM_ROTATE_180)
  || (transform =? ANATIVEWINDOW_TRANSFORM_ROTATE_270).

(* ===================================================================== *)
(** * Outcomes of native code *)
(* ===================================================================== *)

(** A native call returns, aborts the process ([LOG_ALWAYS_FATAL]), or
    has no defined behaviour (a dangling or null pointer is dereferenced,
    a float is converted to an integer type that cannot hold it). *)
Inductive outcome (A : Type) : Type :=
  | Ok (a : A)
  | Fatal (msg : string)
  | Undefined.

Arguments Ok {A} a.
Arguments Fatal {A} msg.
Arguments Undefined {A}.

#[global] Instance outcome_ret : MRet outcome := fun A a => Ok a.

#[global] Instance outcome_bind : MBind outcome := fun A B f c =>
  match c with
  | Ok a => f a
  | Fatal msg => Fatal msg
  | Undefined => Undefined
  end.

(* ===================================================================== *)
(** * File descriptors *)
(* ===================================================================== *)

(** [android::base::unique_fd] (not under src/): the owner of at most one
    descriptor, [-1] when it owns none. *)
Record unique_fd : Type := mk_unique_fd { fd_ : Z }.

(** [release()] hands the descriptor out and leaves the owner empty. *)
Definition unique_fd_release (fd : unique_fd) : Z * unique_fd :=
  (fd_ fd, mk_unique_fd (-1)).

(** The descriptors the destructor of [fd] closes. *)
Definition unique_fd_closes (fd : unique_fd) : gset Z :=
  if fd_ fd =? -1 then ∅ else {[ fd_ fd ]}.

(* ===================================================================== *)
(** * Native objects and the world *)
(* ===================================================================== *)

(** A [JGlobalRefHolder]: the VM and the global reference it keeps. *)
Record JGlobalRefHolder : Type := mkJGlobalRefHolder {
  holder_vm : Z;
  holder_object : Z
}.

(** A [RenderCallback] is a [std::function]: empty, or the closure of
    [createRenderCallback] with its captured [globalCallbackRef]. *)
Inductive RenderCallback : Type :=
  | RenderCallback_nullptr
  | RenderCallback_closure (globalCallbackRef : JGlobalRefHolder).

Record HardwareBufferRenderParams : Type := mkHardwareBufferRenderParams {
  params_transform : SkMatrix;
  params_colorSpace : Z;
  params_renderCallback : RenderCallback
}.

(** A [RootRenderNode] as far as this file touches it: the VM of its
    [JvmErrorReporter], its name, the strong count of its [RefBase], and
    whether [destroy()] was called on it. *)
Record RootRenderNode : Type := mkRootRenderNode {
  node_errorReporter : option Z;
  node_name : string;
  node_strong : nat;
  node_destroyed : bool
}.

(** Modelled from the spec: the [RenderProxy] of the engine (its class is
    not under src/): the bound root, the bound buffer, the current render
    parameters, the light geometry and the two shadow alphas as 8-bit
    integers. *)
Record RenderProxy : Type := mkRenderProxy {
  proxy_rootRenderNode : Z;
  proxy_hardwareBuffer : option Z;
  proxy_renderParams : option HardwareBufferRenderParams;
  proxy_lightGeometry : option (jfloat * jfloat * jfloat * jfloat);
  proxy_lightAlpha : option (Z * Z)
}.

(** A call up into the managed runtime through [CallStaticVoidMethod]. *)
Record JavaCall : Type := mkJavaCall {
  call_clazz : Z;
  call_method : Z;
  call_args : list Z
}.

(** [gHardwareBufferRendererClassInfo]. *)
Record ClassInfo : Type := mkClassInfo {
  clazz : Z;
  invokeRenderCallback : Z
}.

(** The JNI environment of a call: [GetJavaVM] yields the VM or fails. *)
Record JNIEnv : Type := mkJNIEnv {
  env_GetJavaVM : option Z
}.

(** Everything the native side can observe or change. *)
Record World : Type := mkWorld {
  rootNodes : gmap Z RootRenderNode;
  renderProxies : gmap Z RenderProxy;
  globalRefs : gmap Z Z;
  openFds : gset Z;
  javaCalls : list JavaCall;
  logcat : list LogRecord;
  classInfo : ClassInfo
}.

Definition nullptr : Z := 0.

(** Addresses in use by a native object. *)
Definition live_addresses (w : World) : gset Z :=
  dom (rootNodes w) ∪ dom (renderProxies w).

Definition set_rootNodes (f : gmap Z RootRenderNode -> gmap Z RootRenderNode)
    (w : World) : World :=
  mkWorld (f (rootNodes w)) (renderProxies w) (globalRefs w) (openFds w)
          (javaCalls w) (logcat w) (classInfo w).

Definition set_renderProxies (f : gmap Z RenderProxy -> gmap Z RenderProxy)
    (w : World) : World :=
  mkWorld (rootNodes w) (f (renderProxies w)) (globalRefs w) (openFds w)
          (javaCalls w) (logcat w) (classInfo w).

Definition set_globalRefs (f : gmap Z Z -> gmap Z Z) (w : World) : World :=
  mkWorld (rootNodes w) (renderProxies w) (f (globalRefs w)) (openFds w)
          (javaCalls w) (logcat w) (classInfo w).

Definition set_openFds (f : gset Z -> gset Z) (w : World) : World :=
  mkWorld (rootNodes w) (renderProxies w) (globalRefs w) (f (openFds w))
          (javaCalls w) (logcat w) (classInfo w).

Definition add_javaCall (c : JavaCall) (w : World) : World :=
  mkWorld (rootNodes w) (renderProxies w) (globalRefs w) (openFds w)
          (javaCalls w ++ [c]) (logcat w) (classInfo w).

Definition add_logs (l : list LogRecord) (w : World) : World :=
  mkWorld (rootNodes w) (renderProxies w) (globalRefs w) (openFds w)
          (javaCalls w) (logcat w ++ l) (classInfo w).

(** A method call through a [RenderProxy*]: undefined unless the pointer
    is to a live proxy. *)
Definition with_proxy (proxy : Z) (f : RenderProxy -> RenderProxy)
    (w : World) : outcome World :=
  match renderProxies w !! proxy with
  | Some p => Ok (set_renderProxies (<[proxy := f p]>) w)
  | None => Undefined
  end.

(** A method call through a [RootRenderNode*]. *)
Definition with_node (node : Z) (f : RootRenderNode -> RootRenderNode)
    (w : World) : outcome World :=
  match rootNodes w !! node with
  | Some n => Ok (set_rootNodes (<[node := f n]>) w)
  | None => Undefined
  end.

Definition node_set_strong (k : nat) (n : RootRenderNode) : RootRenderNode :=
  mkRootRenderNode (node_errorReporter n) (node_name n) k (node_destroyed n).

Definition node_set_name (name : string) (n : RootRenderNode) : RootRenderNode :=
  mkRootRenderNode (node_errorReporter n) name (node_strong n) (node_destroyed n).

Definition node_set_destroyed (n : RootRenderNode) : RootRenderNode :=
  mkRootRenderNode (node_errorReporter n) (node_name n) (node_strong n) true.

(** [RefBase::incStrong] (libutils, not under src/). *)
Definition incStrong (node : Z) (w : World) : outcome World :=
  with_node node (fun n => node_set_strong (S (node_strong n)) n) w.

(** Modelled from the spec: [RefBase::decStrong] (libutils, not under
    src/); the object is freed when its last strong reference goes. *)
Definition decStrong (node : Z) (w : World) : outcome World :=
  match rootNodes w !! node with
  | Some n =>
      match node_strong n with
      | O => Undefined
      | S O => Ok (set_rootNodes (delete node) w)
      | S k => Ok (set_rootNodes (<[node := node_set_strong k n]>) w)
      end
  | None => Undefined
  end.

Definition setName (node : Z) (name : string) (w : World) : outcome World :=
  with_node node (node_set_name name) w.

(* ===================================================================== *)
(** * Collaborators *)
(* ===================================================================== *)

(** The static routines of the file that have an address. *)
Inductive NativeRoutine : Type :=
  | routine_createRootNode
  | routine_destroyRootNode
  | routine_create
  | routine_HardwareBufferRenderer_destroy
  | routine_render
  | routine_setLightGeometry
  | routine_setLightAlpha
  | routine_getFinalizer.

Definition all_routines : list NativeRoutine :=
  [routine_createRootNode; routine_destroyRootNode; routine_create;
   routine_HardwareBufferRenderer_destroy; routine_render;
   routine_setLightGeometry; routine_setLightAlpha; routine_getFinalizer].

(** What the file calls and does not define: the allocator, the JNI
    global-reference table, the resolvers of colour spaces and buffers,
    the engine's sync-and-draw step, and the linker's placement of the
    routines. *)
Class Collaborators : Type := {
  operator_new : gset Z -> Z;
  NewGlobalRef : gmap Z Z -> Z;
  getNativeColorSpace : Z -> Z;
  AHardwareBuffer_fromHardwareBuffer : Z -> Z;
  syncAndDrawFrame : Z -> World -> Z * World;
  address_of : NativeRoutine -> Z
}.

(** What C++ and JNI promise of them: a new object does not share its
    address with a live one and is not null, a new global reference is not
    one in use, and two routines do not share an address. *)
Class CollaboratorsOk (C : Collaborators) : Prop := {
  operator_new_fresh : forall live, operator_new live ∉ live;
  operator_new_nonnull : forall live, operator_new live <> nullptr;
  NewGlobalRef_fresh : forall refs, refs !! NewGlobalRef refs = None;
  address_of_inj : forall f g, address_of f = address_of g -> f = g
}.

(* ===================================================================== *)
(** * The functions of the file *)
(* ===================================================================== *)

Section Functions.

Context {C : Collaborators}.

(** [createRenderCallback]: no consumer, no callback; otherwise a closure
    over a new global reference to the consumer.  A failing [GetJavaVM]
    aborts. *)
Definition createRenderCallback (env : JNIEnv) (releaseCallback : Z)
    (w : World) : outcome (RenderCallback * World) :=
  if releaseCallback =? nullptr then Ok (RenderCallback_nullptr, w)
  else
    match env_GetJavaVM env with
    | None => Fatal "Unable to get Java VM"
    | Some vm =>
        let ref := NewGlobalRef (globalRefs w) in
        let globalCallbackRef := mkJGlobalRefHolder vm ref in
        Ok (RenderCallback_closure globalCallbackRef,
            set_globalRefs (<[ref := releaseCallback]>) w)
    end.

(** The body of the closure: one [CallStaticVoidMethod] on
    [invokeRenderCallback] with the consumer, the released descriptor and
    the status.  The [unique_fd] is passed by reference, so the caller
    sees it emptied. *)
Definition RenderCallback_body (globalCallbackRef : JGlobalRefHolder)
    (fd : unique_fd) (status : Z) (w : World) : unique_fd * World :=
  let '(raw, fd') := unique_fd_release fd in
  (fd',
   add_javaCall
     (mkJavaCall (clazz (classInfo w)) (invokeRenderCallback (classInfo w))
                 [holder_object globalCallbackRef; raw; status]) w).

(** The destructor of a [unique_fd] closes what it still owns. *)
Definition unique_fd_destroy (fd : unique_fd) (w : World) : World :=
  set_openFds (fun s => s ∖ unique_fd_closes fd) w.

Definition android_graphics_HardwareBufferRenderer_createRootNode
    (env : JNIEnv) (w : World) : outcome (Z * World) :=
  let node := operator_new (live_addresses w) in
  let w0 :=
    set_rootNodes
      (<[node := mkRootRenderNode (env_GetJavaVM env) "" 0 false]>) w in
  w1 ← incStrong node w0;
  w2 ← setName node "RootRenderNode" w1;
  mret (node, w2).

(** Modelled from the spec: [RootRenderNode::destroy()] (not under src/)
    marks the root destroyed; it does not free it. *)
Definition android_graphics_hardwareBufferRenderer_destroyRootNode
    (renderNodePtr : Z) (w : World) : outcome World :=
  with_node renderNodePtr node_set_destroyed w.

Definition setHardwareBuffer (buffer : Z) (p : RenderProxy) : RenderProxy :=
  mkRenderProxy (proxy_rootRenderNode p) (Some buffer) (proxy_renderParams p)
                (proxy_lightGeometry p) (proxy_lightAlpha p).

Definition setHardwareBufferRenderParams (params : HardwareBufferRenderParams)
    (p : RenderProxy) : RenderProxy :=
  mkRenderProxy (proxy_rootRenderNode p) (proxy_hardwareBuffer p) (Some params)
                (proxy_lightGeometry p) (proxy_lightAlpha p).

Definition setLightGeometry (x y z radius : jfloat) (p : RenderProxy)
    : RenderProxy :=
  mkRenderProxy (proxy_rootRenderNode p) (proxy_hardwareBuffer p)
                (proxy_renderParams p) (Some (x, y, z, radius))
                (proxy_lightAlpha p).

Definition setLightAlpha (ambient spot : Z) (p : RenderProxy) : RenderProxy :=
  mkRenderProxy (proxy_rootRenderNode p) (proxy_hardwareBuffer p)
                (proxy_renderParams p) (proxy_lightGeometry p)
                (Some (ambient, spot)).

(** [create]: resolve the buffer, build a proxy on the root, bind the
    buffer.  The pointer the resolver returns is not tested: a null one
    is bound like any other.  Modelled from the spec: the constructor of
    [RenderProxy] (not under src/) takes a strong reference on the
    root. *)
Definition android_graphics_HardwareBufferRenderer_create
    (buffer renderNodePtr : Z) (w : World) : outcome (Z * World) :=
  let hardwareBuffer := AHardwareBuffer_fromHardwareBuffer buffer in
  let rootRenderNode := renderNodePtr in
  w1 ← incStrong rootRenderNode w;
  let proxy := operator_new (live_addresses w1) in
  let w2 :=
    set_renderProxies
      (<[proxy := mkRenderProxy rootRenderNode None None None None]>) w1 in
  w3 ← with_proxy proxy (setHardwareBuffer hardwareBuffer) w2;
  mret (proxy, w3).

(** [HardwareBufferRenderer_destroy]: [delete proxy].  Deleting a null
    pointer does nothing.  Modelled from the spec: the destructor of
    [RenderProxy] (not under src/) releases the buffer binding, which goes
    with the object, and the reference on the root. *)
Definition HardwareBufferRenderer_destroy (renderProxy : Z) (w : World)
    : outcome World :=
  if renderProxy =? nullptr then Ok w
  else
    match renderProxies w !! renderProxy with
    | None => Undefined
    | Some p =>
        decStrong (proxy_rootRenderNode p)
                  (set_renderProxies (delete renderProxy) w)
    end.

Definition android_graphics_HardwareBufferRenderer_render
    (env : JNIEnv) (renderProxy transform width height colorspacePtr
     consumer : Z) (w : World) : outcome (Z * World) :=
  let proxy := renderProxy in
  let skWidth := static_cast_SkScalar width in
  let skHeight := static_cast_SkScalar height in
  let '(matrix, logs) :=
    createMatrixFromBufferTransform skWidth skHeight transform in
  let w1 := add_logs logs w in
  let colorSpace := getNativeColorSpace colorspacePtr in
  '(callback, w2) ← createRenderCallback env consumer w1;
  w3 ← with_proxy proxy
         (setHardwareBufferRenderParams
            (mkHardwareBufferRenderParams matrix colorSpace callback)) w2;
  mret (syncAndDrawFrame proxy w3).

Definition android_graphics_HardwareBufferRenderer_setLightGeometry
    (renderProxyPtr : Z) (lightX lightY lightZ lightRadius : jfloat)
    (w : World) : outcome World :=
  with_proxy renderProxyPtr (setLightGeometry lightX lightY lightZ lightRadius) w.

(** The [int] 255 as a float. *)
Definition float_255 : jfloat :=
  binary_normalize float_prec float_emax 255 0 false.

(** Single-precision multiplication, rounded to nearest, ties to even. *)
Definition float_mul (x y : jfloat) : jfloat := SFmul float_prec float_emax x y.

(** [(uint8_t) f]: the fractional part is discarded; the conversion is
    undefined when the integer part does not fit the type, and for
    infinities and NaN. *)
Definition static_cast_uint8 (f : jfloat) : outcome Z :=
  match f with
  | S754_zero _ => Ok 0
  | S754_finite _ _ _ =>
      let t := float_trunc f in
      if (0 <=? t) && (t <=? 255) then Ok t else Undefined
  | _ => Undefined
  end.

Definition android_graphics_HardwareBufferRenderer_setLightAlpha
    (renderProxyPtr : Z) (ambientShadowAlpha spotShadowAlpha : jfloat)
    (w : World) : outcome World :=
  ambient ← static_cast_uint8 (float_mul float_255 ambientShadowAlpha);
  spot ← static_cast_uint8 (float_mul float_255 spotShadowAlpha);
  with_proxy renderProxyPtr (setLightAlpha ambient spot) w.

Definition android_graphics_HardwareBufferRenderer_getFinalizer : Z :=
  address_of routine_HardwareBufferRenderer_destroy.

(** The routine an address points at, if any. *)
Definition routine_at (address : Z) : option NativeRoutine :=
  find (fun r => address_of r =? address) all_routines.

(** A call of a finalizer address on a native pointer, as the managed
    runtime's allocation registry makes it: [void (*)(void*)]. *)
Definition call_finalizer (address ptr : Z) (w : World) : outcome World :=
  match routine_at address with
  | Some routine_HardwareBufferRenderer_destroy =>
      HardwareBufferRenderer_destroy ptr w
  | _ => Undefined
  end.

End Functions.

(* ===================================================================== *)
(** * Geometry of the buffer *)
(* ===================================================================== *)

(** The corners of the rectangle [0,a]x[0,b], from the origin and around
    in the order right, down, left (y grows downwards). *)
Definition rect_corners (a b : SkScalar) : list SkPoint :=
  [(0, 0); (a, 0); (a, b); (0, b)].

Definition in_rect (a b : SkScalar) (p : SkPoint) : bool :=
  (0 <=? fst p) && (fst p <=? a) && (0 <=? snd p) && (snd p <=? b).

(** The size of the upright content of a physical buffer of
    [width] x [height]: a quarter turn swaps the sides. *)
Definition logical_size (width height : SkScalar) (transform : Z)
    : SkScalar * SkScalar :=
  if (transform =? ANATIVEWINDOW_TRANSFORM_ROTATE_90)
     || (transform =? ANATIVEWINDOW_TRANSFORM_ROTATE_270)
  then (height, width) else (width, height).

(** How many quarter turns an orientation stands for. *)
Definition quarter_turns (transform : Z) : nat :=
  if transform =? ANATIVEWINDOW_TRANSFORM_ROTATE_90 then 1%nat
  else if transform =? ANATIVEWINDOW_TRANSFORM_ROTATE_180 then 2%nat
  else if transform =? ANATIVEWINDOW_TRANSFORM_ROTATE_270 then 3%nat
  else 0%nat.

(** The images of the corners of the logical content rectangle. *)
Definition mapped_corners (width height : SkScalar) (transform : Z)
    : list SkPoint :=
  let '(lw, lh) := logical_size width height transform in
  map (mapXY (fst (createMatrixFromBufferTransform width height transform)))
      (rect_corners lw lh).

(** The property of the transform builder the specification asks for: the
    corners of the content land on the corners of the physical rectangle,
    in the order the rotation gives them. *)
Definition maps_content_onto_buffer (width height : SkScalar) (transform : Z)
    : Prop :=
  mapped_corners width height transform
  = rotate (quarter_turns transform) (rect_corners width height).

(** The builder in the specification's words: a rotation about the origin,
    then a translation, as a product of the two matrices. *)
Definition SkMatrix_RotateDeg (degrees : Z) : SkMatrix :=
  setRotate degrees SkMatrix_I.

Definition SkMatrix_Translate (dx dy : SkScalar) : SkMatrix :=
  setTranslate dx dy SkMatrix_I.

Definition spec_buildTransform (width height : SkScalar) (transform : Z)
    : SkMatrix :=
  if transform =? ANATIVEWINDOW_TRANSFORM_ROTATE_90 then
    SkMatrix_Concat (SkMatrix_Translate width 0) (SkMatrix_RotateDeg 90)
  else if transform =? ANATIVEWINDOW_TRANSFORM_ROTATE_180 then
    SkMatrix_Concat (SkMatrix_Translate width height) (SkMatrix_RotateDeg 180)
  else if transform =? ANATIVEWINDOW_TRANSFORM_ROTATE_270 then
    SkMatrix_Concat (SkMatrix_Translate 0 width) (SkMatrix_RotateDeg 270)
  else SkMatrix_I.

(* ===================================================================== *)
(** * The shadow alphas in the specification's words *)
(* ===================================================================== *)

(** The exact value of a float as a rational; zero for the values that
    are not numbers. *)
Definition float_to_Q (f : spec_float) : Q :=
  match f with
  | S754_finite s m e =>
      let a := (inject_Z (Z.pos m) * Qpower 2 e)%Q in
      if s then Qopp a else a
  | _ => 0%Q
  end.

Definition spec_clamp01 (q : Q) : Q :=
  if Qle_bool q 0 then 0%Q else if Qle_bool 1 q then 1%Q else q.

(** Rounding to the nearest integer, halves upwards. *)
Definition spec_round (q : Q) : Z := Qfloor (q + (1 # 2))%Q.

(** [round(clamp(value,0,1) * 255)]. *)
Definition spec_lightAlpha (value : jfloat) : Z :=
  spec_round (spec_clamp01 (float_to_Q value) * 255)%Q.

(** Cutting the fraction off toward zero: the floor of a number that is
    not negative, the ceiling of a negative one. *)
Definition spec_trunc (q : Q) : Z :=
  if Qle_bool 0 q then Qfloor q else Qceiling q.

(** The floats that are numbers: zeros and finite values. *)
Definition float_is_number (f : spec_float) : bool :=
  match f with
  | S754_zero _ | S754_finite _ _ _ => true
  | _ => false
  end.

(** The float [m * 2^e]. *)
Definition float_of (m e : Z) : jfloat :=
  binary_normalize float_prec float_emax m e false.

(** The alphas a proxy holds after a call, if the call returned. *)
Definition stored_lightAlpha (proxy : Z) (r : outcome World) : option (Z * Z) :=
  match r with
  | Ok w => p ← renderProxies w !! proxy; proxy_lightAlpha p
  | _ => None
  end.

(* ===================================================================== *)
(** * A concrete set of collaborators *)
(* ===================================================================== *)

Definition sample_address_of (r : NativeRoutine) : Z :=
  match r with
  | routine_createRootNode => 4096
  | routine_destroyRootNode => 4160
  | routine_create => 4224
  | routine_HardwareBufferRenderer_destroy => 4288
  | routine_render => 4352
  | routine_setLightGeometry => 4416
  | routine_setLightAlpha => 4480
  | routine_getFinalizer => 4544
  end.

(** An engine whose sync-and-draw step reports the number of roots and
    leaves the world alone. *)
Definition sample_collaborators : Collaborators := {|
  operator_new := fun live => fresh ({[ nullptr ]} ∪ live);
  NewGlobalRef := fun refs => fresh (dom refs);
  getNativeColorSpace := fun ptr => ptr;
  AHardwareBuffer_fromHardwareBuffer :=
    fun buffer => if buffer =? nullptr then nullptr else buffer + 1;
  syncAndDrawFrame := fun _ w => (Z.of_nat (size (rootNodes w)), w);
  address_of := sample_address_of
|}.

Definition empty_world : World :=
  mkWorld ∅ ∅ ∅ ∅ [] [] (mkClassInfo 11 12).

Definition sample_env : JNIEnv := mkJNIEnv (Some 77).

(** The world after a root and a proxy on it were created; the proxy and
    the world. *)
Definition sample_session : outcome (Z * World) :=
  '(root, w1) ←
    android_graphics_HardwareBufferRenderer_createRootNode
      (C := sample_collaborators) sample_env empty_world;
  android_graphics_HardwareBufferRenderer_create
    (C := sample_collaborators) 500 root w1.

Definition sample_proxy : Z :=
  match sample_session with Ok (p, _) => p | _ => nullptr end.

Definition sample_world : World :=
  match sample_session with Ok (_, w) => w | _ => empty_world end.

(** The root a call to [createRootNode] leaves behind. *)
Definition fresh_root (env : JNIEnv) : RootRenderNode :=
  mkRootRenderNode (env_GetJavaVM env) "RootRenderNode" 1 false.

(** The state of the sample proxy: bound to root 1 and to the buffer,
    never rendered, no light set. *)
Definition sample_proxy_state : RenderProxy :=
  mkRenderProxy 1 (Some 501) None None None.

(** The alpha [k/256] is stored as [floor (255 k / 256)]; a check that
    can be run over the whole grid. *)
Definition alpha_grid_ok (k : Z) : bool :=
  match static_cast_uint8 (float_mul float_255 (float_of k (-8))) with
  | Ok n => n =? 255 * k / 256
  | _ => false
  end.

(* ===================================================================== *)
(** * Measures on matrices and points *)
(* ===================================================================== *)

(** The determinant of the linear part of a matrix. *)
Definition det2 (m : SkMatrix) : SkScalar :=
  kMScaleX m * kMScaleY m - kMSkewX m * kMSkewY m.

(** The square of the distance between two points. *)
Definition dist2 (p q : SkPoint) : SkScalar :=
  (fst p - fst q) * (fst p - fst q) + (snd p - snd q) * (snd p - snd q).

(** What [(uint8_t)(255 * (k/256))] is by arithmetic on integers: the
    quotient toward zero of [255 k] by 256 when that fits the type. *)
Definition alpha_by_quotient (k : Z) : outcome Z :=
  let t := Z.quot (255 * k) 256 in
  if (0 <=? t) && (t <=? 255) then Ok t else Undefined.

Definition outcome_Z_eqb (a b : outcome Z) : bool :=
  match a, b with
  | Ok x, Ok y => x =? y
  | Undefined, Undefined => true
  | _, _ => false
  end.

(** The check of the conversion against [alpha_by_quotient] at [k/256]. *)
Definition alpha_wide_grid_ok (k : Z) : bool :=
  outcome_Z_eqb (static_cast_uint8 (float_mul float_255 (float_of k (-8))))
                (alpha_by_quotient k).

(* ===================================================================== *)
(** * Worlds the entry points keep sound *)
(* ===================================================================== *)

(** The number of live proxies bound to a root. *)
Definition bound_to (node : Z) (proxies : gmap Z RenderProxy) : nat :=
  size (filter (fun kp : Z * RenderProxy => proxy_rootRenderNode kp.2 = node)
               proxies).

(** No proxy lives at the null address, every live proxy is bound to a
    live root, and a root has at least as many strong references as
    there are proxies bound to it. *)
Definition world_ok (w : World) : Prop :=
  renderProxies w !! nullptr = None
  /\ (forall proxy p,
        renderProxies w !! proxy = Some p ->
        is_Some (rootNodes w !! proxy_rootRenderNode p))
  /\ (forall node n,
        rootNodes w !! node = Some n ->
        (bound_to node (renderProxies w) <= node_strong n)%nat).

Section EntryPoints.

Context {C : Collaborators}.

(** One returning call, with any arguments, of [createRootNode],
    [create], [render], [setLightGeometry], [setLightAlpha] or the
    finalizer.  [destroyRootNode] is not among them: what it does is
    [RootRenderNode::destroy()], which is not under src/. *)
Inductive entry_step : World -> World -> Prop :=
  | step_createRootNode env w node w' :
      android_graphics_HardwareBufferRenderer_createRootNode env w
      = Ok (node, w') ->
      entry_step w w'
  | step_create buffer renderNodePtr w proxy w' :
      android_graphics_HardwareBufferRenderer_create buffer renderNodePtr w
      = Ok (proxy, w') ->
      entry_step w w'
  | step_render env proxy transform width height colorspacePtr consumer w
                status w' :
      android_graphics_HardwareBufferRenderer_render
        env proxy transform width height colorspacePtr consumer w
      = Ok (status, w') ->
      entry_step w w'
  | step_setLightGeometry proxy x y z radius w w' :
      android_graphics_HardwareBufferRenderer_setLightGeometry
        proxy x y z radius w = Ok w' ->
      entry_step w w'
  | step_setLightAlpha proxy ambient spot w w' :
      android_graphics_HardwareBufferRenderer_setLightAlpha
        proxy ambient spot w = Ok w' ->
      entry_step w w'
  | step_finalizer ptr w w' :
      call_finalizer android_graphics_HardwareBufferRenderer_getFinalizer ptr w
      = Ok w' ->
      entry_step w w'.

End EntryPoints.

(* ===================================================================== *)
(** * The JNI glue *)
(* ===================================================================== *)

(** A row of [gMethods]: the name of the managed method, its descriptor,
    and the routine behind [fnPtr]. *)
Record JNINativeMethod : Type := mkJNINativeMethod {
  jni_name : string;
  jni_signature : string;
  jni_fnPtr : NativeRoutine
}.

Definition kClassPathName : string := "android/graphics/HardwareBufferRenderer".

Definition gMethods : list JNINativeMethod :=
  [mkJNINativeMethod "nCreateHardwareBufferRenderer"
                     "(Landroid/hardware/HardwareBuffer;J)J" routine_create;
   mkJNINativeMethod "nRender" "(JIIIJLjava/util/function/Consumer;)I"
                     routine_render;
   mkJNINativeMethod "nCreateRootRenderNode" "()J" routine_createRootNode;
   mkJNINativeMethod "nSetLightGeometry" "(JFFFF)V" routine_setLightGeometry;
   mkJNINativeMethod "nSetLightAlpha" "(JFF)V" routine_setLightAlpha;
   mkJNINativeMethod "nGetFinalizer" "()J" routine_getFinalizer;
   mkJNINativeMethod "nDestroyRootRenderNode" "(J)V" routine_destroyRootNode].

(** The types a C parameter or result of the file is declared with. *)
Inductive CType : Type :=
  | C_JNIEnv_ptr | C_jobject
  | C_jboolean | C_jbyte | C_jchar | C_jshort | C_jint | C_jlong
  | C_jfloat | C_jdouble
  | C_long | C_int | C_void.

(** The parameter lists of the routines, as declared. *)
Definition c_parameters (r : NativeRoutine) : list CType :=
  match r with
  | routine_createRootNode => [C_JNIEnv_ptr; C_jobject]
  | routine_destroyRootNode => [C_JNIEnv_ptr; C_jobject; C_jlong]
  | routine_create => [C_JNIEnv_ptr; C_jobject; C_jobject; C_jlong]
  | routine_HardwareBufferRenderer_destroy => [C_jobject]
  | routine_render =>
      [C_JNIEnv_ptr; C_jobject; C_jobject; C_jint; C_jint; C_jint; C_jlong;
       C_jobject]
  | routine_setLightGeometry =>
      [C_JNIEnv_ptr; C_jobject; C_jobject; C_jfloat; C_jfloat; C_jfloat;
       C_jfloat]
  | routine_setLightAlpha =>
      [C_JNIEnv_ptr; C_jobject; C_jobject; C_jfloat; C_jfloat]
  | routine_getFinalizer => []
  end.

(** The result types of the routines, as declared. *)
Definition c_result (r : NativeRoutine) : CType :=
  match r with
  | routine_createRootNode => C_long
  | routine_destroyRootNode => C_void
  | routine_create => C_long
  | routine_HardwareBufferRenderer_destroy => C_void
  | routine_render => C_int
  | routine_setLightGeometry => C_void
  | routine_setLightAlpha => C_void
  | routine_getFinalizer => C_jlong
  end.

(** The types of a JNI method descriptor. *)
Inductive JType : Type :=
  | JBoolean | JByte | JChar | JShort | JInt | JLong | JFloat | JDouble
  | JObject (class_name : string)
  | JArray (element : JType).

(** The class name up to the semicolon, and what follows it. *)
Fixpoint read_class_name (s : string) : option (string * string) :=
  match s with
  | EmptyString => None
  | String c rest =>
      if Ascii.eqb c ";"%char then Some (EmptyString, rest)
      else
        match read_class_name rest with
        | Some (name, rest') => Some (String c name, rest')
        | None => None
        end
  end.

(** One type at the head of a descriptor, and what follows it. *)
Fixpoint parse_JType (s : string) : option (JType * string) :=
  match s with
  | EmptyString => None
  | String c rest =>
      if Ascii.eqb c "Z"%char then Some (JBoolean, rest)
      else if Ascii.eqb c "B"%char then Some (JByte, rest)
      else if Ascii.eqb c "C"%char then Some (JChar, rest)
      else if Ascii.eqb c "S"%char then Some (JShort, rest)
      else if Ascii.eqb c "I"%char then Some (JInt, rest)
      else if Ascii.eqb c "J"%char then Some (JLong, rest)
      else if Ascii.eqb c "F"%char then Some (JFloat, rest)
      else if Ascii.eqb c "D"%char then Some (JDouble, rest)
      else if Ascii.eqb c "L"%char then
        match read_class_name rest with
        | Some (name, rest') => Some (JObject name, rest')
        | None => None
        end
      else if Ascii.eqb c "["%char then
        match parse_JType rest with
        | Some (t, rest') => Some (JArray t, rest')
        | None => None
        end
      else None
  end.

(** The parameter types up to the closing parenthesis. *)
Fixpoint parse_parameters (fuel : nat) (s : string)
    : option (list JType * string) :=
  match fuel with
  | O => None
  | S fuel' =>
      match s with
      | EmptyString => None
      | String c rest =>
          if Ascii.eqb c ")"%char then Some ([], rest)
          else
            match parse_JType s with
            | Some (t, after) =>
                match parse_parameters fuel' after with
                | Some (ts, rest') => Some (t :: ts, rest')
                | None => None
                end
            | None => None
            end
      end
  end.

(** A method descriptor [(parameters)result]; no result type is [V]. *)
Definition parse_descriptor (s : string) : option (list JType * option JType) :=
  match s with
  | String c rest =>
      if Ascii.eqb c "("%char then
        match parse_parameters (S (String.length rest)) rest with
        | Some (ts, result) =>
            if String.eqb result "V" then Some (ts, None)
            else
              match parse_JType result with
              | Some (t, EmptyString) => Some (ts, Some t)
              | _ => None
              end
        | None => None
        end
      else None
  | EmptyString => None
  end.

(** The C type JNI passes for a descriptor type. *)
Definition jni_passes (t : JType) : CType :=
  match t with
  | JBoolean => C_jboolean
  | JByte => C_jbyte
  | JChar => C_jchar
  | JShort => C_jshort
  | JInt => C_jint
  | JLong => C_jlong
  | JFloat => C_jfloat
  | JDouble => C_jdouble
  | JObject _ => C_jobject
  | JArray _ => C_jobject
  end.

(** A declared parameter receives what JNI passes when the types are the
    same, or when a [jlong] handle is received as a [jobject]. *)
Definition parameter_agrees (t : JType) (c : CType) : Prop :=
  jni_passes t = c \/ (t = JLong /\ c = C_jobject).

(** A declared result is what the descriptor promises: [long] and
    [jlong] for [J], [int] for [I], [void] for [V]. *)
Definition result_agrees (t : option JType) (c : CType) : Prop :=
  match t with
  | None => c = C_void
  | Some JLong => c = C_jlong \/ c = C_long
  | Some JInt => c = C_jint \/ c = C_int
  | Some t' => jni_passes t' = c
  end.

(** What the file asks of the managed runtime and of the buffer helpers
    when it registers.  [HardwareBufferHelpers::init()] is not under
    src/: it may return, with whatever it did to the world, or not. *)
Class JniRuntime : Type := {
  FindClass : string -> option Z;
  GetStaticMethodID : Z -> string -> string -> option Z;
  HardwareBufferHelpers_init : World -> outcome World;
  registerNativeMethods : string -> list JNINativeMethod -> nat -> Z
}.

Definition set_classInfo (info : ClassInfo) (w : World) : World :=
  mkWorld (rootNodes w) (renderProxies w) (globalRefs w) (openFds w)
          (javaCalls w) (logcat w) info.

Section Registration.

Context {J : JniRuntime}.

(** [register_android_graphics_HardwareBufferRenderer]: the lookups, the
    call of [HardwareBufferHelpers::init()], the registration.  The
    [OrDie] helpers (core_jni_helpers.h, not under src/) abort when the
    class or the method is not found and when the registration reports a
    negative result. *)
Definition register_android_graphics_HardwareBufferRenderer (w : World)
    : outcome (Z * World) :=
  match FindClass "android/graphics/HardwareBufferRenderer" with
  | None => Fatal "Unable to find class"
  | Some hardwareBufferRendererClazz =>
      match GetStaticMethodID hardwareBufferRendererClazz "invokeRenderCallback"
                              "(Ljava/util/function/Consumer;II)V" with
      | None => Fatal "Unable to find static method"
      | Some method =>
          let w1 :=
            set_classInfo (mkClassInfo hardwareBufferRendererClazz method) w in
          w2 ← HardwareBufferHelpers_init w1;
          let res :=
            registerNativeMethods kClassPathName gMethods (length gMethods) in
          if res <? 0 then Fatal "Unable to register native methods."
          else Ok (res, w2)
      end
  end.

End Registration.

(** A runtime that knows the class and its callback method. *)
Definition sample_runtime : JniRuntime := {|
  FindClass := fun name =>
    if String.eqb name "android/graphics/HardwareBufferRenderer" then Some 11
    else None;
  GetStaticMethodID := fun cls name sig =>
    if (cls =? 11) && String.eqb name "invokeRenderCallback" then Some 12
    else None;
  HardwareBufferHelpers_init := fun w => Ok w;
  registerNativeMethods := fun _ _ _ => 0
|}.

#[global] Instance NativeRoutine_eq_dec : EqDecision NativeRoutine.
Proof. solve_decision. Defined.

(** The world after the root of the sample session was created. *)
Definition sample_root_world : World :=
  match android_graphics_HardwareBufferRenderer_createRootNode
          (C := sample_collaborators) sample_env empty_world with
  | Ok (_, w) => w
  | _ => empty_world
  end.

(* ===================================================================== *)
(** * The transform builder: what the matrices are *)
(* ===================================================================== *)

Section TransformBuilder.

Implicit Types (width height : SkScalar) (transform : Z) (p : SkPoint).

Lemma SkMatrix_eq (a b : SkMatrix) :
  kMScaleX a = kMScaleX b -> kMSkewX a = kMSkewX b -> kMTransX a = kMTransX b ->
  kMSkewY a = kMSkewY b -> kMScaleY a = kMScaleY b -> kMTransY a = kMTransY b ->
  kMPersp0 a = kMPersp0 b -> kMPersp1 a = kMPersp1 b -> kMPersp2 a = kMPersp2 b ->
  a = b.
Proof. destruct a, b; simpl; intros; subst; reflexivity. Qed.

(** The rotations, as maps of points (y grows downwards, so a positive
    angle turns the x axis onto the y axis). *)
Lemma mapXY_rotate_90 x y : mapXY (SkMatrix_RotateDeg 90) (x, y) = (- y, x).
Proof. unfold mapXY; simpl; f_equal; lia. Qed.

Lemma mapXY_rotate_180 x y : mapXY (SkMatrix_RotateDeg 180) (x, y) = (- x, - y).
Proof. unfold mapXY; simpl; f_equal; lia. Qed.

Lemma mapXY_rotate_270 x y : mapXY (SkMatrix_RotateDeg 270) (x, y) = (y, - x).
Proof. unfold mapXY; simpl; f_equal; lia. Qed.

Lemma mapXY_translate dx dy x y :
  mapXY (SkMatrix_Translate dx dy) (x, y) = (x + dx, y + dy).
Proof. unfold mapXY; simpl; f_equal; lia. Qed.

Lemma mapXY_identity p : mapXY SkMatrix_I p = p.
Proof. destruct p; unfold mapXY; simpl; f_equal; lia. Qed.

(** Two quarter turns are a half turn, and four are none. *)
Lemma rotate_90_twice :
  SkMatrix_Concat (SkMatrix_RotateDeg 90) (SkMatrix_RotateDeg 90)
  = SkMatrix_RotateDeg 180.
Proof. reflexivity. Qed.

Lemma rotate_90_270_cancel :
  SkMatrix_Concat (SkMatrix_RotateDeg 270) (SkMatrix_RotateDeg 90) = SkMatrix_I.
Proof. reflexivity. Qed.

(** A product of matrices without perspective maps a point as the right
    factor and then the left one. *)
Lemma mapXY_Concat a b p :
  hasPerspective a = false -> hasPerspective b = false ->
  mapXY (SkMatrix_Concat a b) p = mapXY a (mapXY b p).
Proof.
  unfold hasPerspective. intros Ha Hb.
  apply negb_false_iff in Ha, Hb.
  apply andb_prop in Ha as [Ha Ha2]. apply andb_prop in Ha as [Ha0 Ha1].
  apply andb_prop in Hb as [Hb Hb2]. apply andb_prop in Hb as [Hb0 Hb1].
  apply Z.eqb_eq in Ha0, Ha1, Ha2, Hb0, Hb1, Hb2.
  destruct p as [x y]. unfold mapXY, SkMatrix_Concat. simpl.
  rewrite Hb0, Hb1, Hb2. f_equal; ring.
Qed.

(** [postTranslate] is the product with a translation on the left,
    whether the matrix has perspective or not. *)
Lemma postTranslate_Concat dx dy m :
  hasPerspective m = false ->
  postTranslate dx dy m = SkMatrix_Concat (SkMatrix_Translate dx dy) m.
Proof.
  intros Hm. unfold postTranslate. rewrite Hm.
  unfold hasPerspective in Hm. apply negb_false_iff in Hm.
  apply andb_prop in Hm as [Hm H2]. apply andb_prop in Hm as [H0 H1].
  apply Z.eqb_eq in H0, H1, H2.
  apply SkMatrix_eq; simpl; rewrite ?H0, ?H1, ?H2; ring.
Qed.

Lemma setRotate_affine degrees m : hasPerspective (setRotate degrees m) = false.
Proof.
  unfold setRotate. destruct (SkScalarSinCosSnapToZero degrees). reflexivity.
Qed.

(** The builder agrees with the specification's wording on every input. *)
Lemma createMatrix_refines_spec width height transform :
  fst (createMatrixFromBufferTransform width height transform)
  = spec_buildTransform width height transform.
Proof.
  unfold createMatrixFromBufferTransform, spec_buildTransform.
  repeat (case (transform =? _); simpl;
          [ apply postTranslate_Concat, setRotate_affine | ]).
  case (transform =? _); reflexivity.
Qed.

(** The builder as a map of points, case by case. *)
Lemma createMatrix_rotate_90_point width height x y :
  mapXY (fst (createMatrixFromBufferTransform
                width height ANATIVEWINDOW_TRANSFORM_ROTATE_90)) (x, y)
  = (width - y, x).
Proof. unfold mapXY; simpl; f_equal; lia. Qed.

Lemma createMatrix_rotate_180_point width height x y :
  mapXY (fst (createMatrixFromBufferTransform
                width height ANATIVEWINDOW_TRANSFORM_ROTATE_180)) (x, y)
  = (width - x, height - y).
Proof. unfold mapXY; simpl; f_equal; lia. Qed.

Lemma createMatrix_rotate_270_point width height x y :
  mapXY (fst (createMatrixFromBufferTransform
                width height ANATIVEWINDOW_TRANSFORM_ROTATE_270)) (x, y)
  = (y, width - x).
Proof. unfold mapXY; simpl; f_equal; lia. Qed.

(** C4: for every width and height the matrix of ROTATE_90 is the rotation
    by 90 degrees about the origin followed by the translation by
    (+width, 0); that of ROTATE_180 is the rotation by 180 degrees followed
    by the translation by (+width, +height); that of ROTATE_270 is the
    rotation by 270 degrees followed by the translation by (0, +width);
    that of IDENTITY is the identity matrix. *)
Theorem createMatrix_rotate_then_translate width height :
  fst (createMatrixFromBufferTransform
         width height ANATIVEWINDOW_TRANSFORM_ROTATE_90)
  = SkMatrix_Concat (SkMatrix_Translate width 0) (SkMatrix_RotateDeg 90)
  /\ fst (createMatrixFromBufferTransform
            width height ANATIVEWINDOW_TRANSFORM_ROTATE_180)
     = SkMatrix_Concat (SkMatrix_Translate width height) (SkMatrix_RotateDeg 180)
  /\ fst (createMatrixFromBufferTransform
            width height ANATIVEWINDOW_TRANSFORM_ROTATE_270)
     = SkMatrix_Concat (SkMatrix_Translate 0 width) (SkMatrix_RotateDeg 270)
  /\ fst (createMatrixFromBufferTransform
            width height ANATIVEWINDOW_TRANSFORM_IDENTITY)
     = SkMatrix_I
  /\ (forall p,
        mapXY (fst (createMatrixFromBufferTransform
                      width height ANATIVEWINDOW_TRANSFORM_ROTATE_90)) p
        = mapXY (SkMatrix_Translate width 0)
                (mapXY (SkMatrix_RotateDeg 90) p))
  /\ (forall p,
        mapXY (fst (createMatrixFromBufferTransform
                      width height ANATIVEWINDOW_TRANSFORM_ROTATE_180)) p
        = mapXY (SkMatrix_Translate width height)
                (mapXY (SkMatrix_RotateDeg 180) p))
  /\ (forall p,
        mapXY (fst (createMatrixFromBufferTransform
                      width height ANATIVEWINDOW_TRANSFORM_ROTATE_270)) p
        = mapXY (SkMatrix_Translate 0 width)
                (mapXY (SkMatrix_RotateDeg 270) p)).
Proof.
  repeat split.
  - apply (createMatrix_refines_spec width height ANATIVEWINDOW_TRANSFORM_ROTATE_90).
  - apply (createMatrix_refines_spec width height ANATIVEWINDOW_TRANSFORM_ROTATE_180).
  - apply (createMatrix_refines_spec width height ANATIVEWINDOW_TRANSFORM_ROTATE_270).
  - intros [x y]. rewrite createMatrix_rotate_90_point, mapXY_rotate_90,
      mapXY_translate. f_equal; lia.
  - intros [x y]. rewrite createMatrix_rotate_180_point, mapXY_rotate_180,
      mapXY_translate. f_equal; lia.
  - intros [x y]. rewrite createMatrix_rotate_270_point, mapXY_rotate_270,
      mapXY_translate. f_equal; lia.
Qed.

End TransformBuilder.

(* ===================================================================== *)
(** * The transform builder: where the content lands *)
(* ===================================================================== *)

Section ContentRectangle.

Implicit Types (width height : SkScalar).

(** Equalities of lists of points are settled cell by cell. *)
Ltac solve_points :=
  unfold maps_content_onto_buffer, mapped_corners, rect_corners, rotate, mapXY;
  simpl;
  repeat match goal with
         | |- _ :: _ = _ :: _ => f_equal
         | |- (_, _) = (_, _) => f_equal
         end;
  try reflexivity; lia.

(** Three of the four orientations carry the corners of the content onto
    the corners of the physical rectangle, for every size. *)
Lemma identity_maps_content_onto_buffer width height :
  maps_content_onto_buffer width height ANATIVEWINDOW_TRANSFORM_IDENTITY.
Proof. solve_points. Qed.

Lemma rotate_90_maps_content_onto_buffer width height :
  maps_content_onto_buffer width height ANATIVEWINDOW_TRANSFORM_ROTATE_90.
Proof. solve_points. Qed.

Lemma rotate_180_maps_content_onto_buffer width height :
  maps_content_onto_buffer width height ANATIVEWINDOW_TRANSFORM_ROTATE_180.
Proof. solve_points. Qed.

(** Where ROTATE_270 puts the corners of the content: the rectangle
    [0,width] x [width-height,width]. *)
Lemma rotate_270_mapped_corners width height :
  mapped_corners width height ANATIVEWINDOW_TRANSFORM_ROTATE_270
  = [(0, width); (0, width - height); (width, width - height); (width, width)].
Proof. solve_points. Qed.

(** ROTATE_270 carries the content onto the buffer exactly when the buffer
    is square. *)
Lemma rotate_270_maps_content_onto_buffer_iff width height :
  maps_content_onto_buffer width height ANATIVEWINDOW_TRANSFORM_ROTATE_270
  <-> width = height.
Proof.
  unfold maps_content_onto_buffer. rewrite rotate_270_mapped_corners.
  unfold rotate, rect_corners. simpl. split.
  - intros H. injection H. lia.
  - intros ->. solve_points.
Qed.

(** With a translation by (0, +height) the quarter turn back would land
    on the buffer for every size, as its siblings do. *)
Lemma rotate_270_translated_by_height width height :
  map (mapXY (postTranslate 0 height (setRotate 270 SkMatrix_I)))
      (rect_corners height width)
  = rotate 3 (rect_corners width height).
Proof. solve_points. Qed.

(** No rectangle with a corner at the origin is carried by the ROTATE_270
    matrix onto the corners of a buffer that is not square. *)
Lemma rotate_270_no_content_rectangle width height a b :
  0 < width -> width <> height ->
  ~ (forall p,
       p ∈ map (mapXY (fst (createMatrixFromBufferTransform
                              width height ANATIVEWINDOW_TRANSFORM_ROTATE_270)))
               (rect_corners a b) ->
       p ∈ rect_corners width height).
Proof.
  intros Hw Hne H.
  specialize (H (0, width)).
  assert (Hin : (0, width) ∈ rect_corners width height).
  { apply H. unfold rect_corners. cbn [map].
    rewrite createMatrix_rotate_270_point.
    replace (width - 0) with width by lia. left. }
  unfold rect_corners in Hin.
  repeat (apply elem_of_cons in Hin as [Hin | Hin];
          [ injection Hin; intros; lia | ]).
  apply elem_of_nil in Hin. exact Hin.
Qed.

(** When [width] and [height] are read as the size of the content, as the
    managed caller passes them, it is ROTATE_90 that misses: the content
    lands on [width-height,width] x [0,width]. *)
Lemma rotate_90_content_size_reading width height :
  map (mapXY (fst (createMatrixFromBufferTransform
                     width height ANATIVEWINDOW_TRANSFORM_ROTATE_90)))
      (rect_corners width height)
  = [(width, 0); (width, width); (width - height, width); (width - height, 0)].
Proof. solve_points. Qed.

(** The images of the corners of any rectangle at the origin under the
    two quarter-turn matrices. *)
Lemma rotate_90_image width height a b :
  map (mapXY (fst (createMatrixFromBufferTransform
                     width height ANATIVEWINDOW_TRANSFORM_ROTATE_90)))
      (rect_corners a b)
  = [(width, 0); (width, a); (width - b, a); (width - b, 0)].
Proof. solve_points. Qed.

Lemma rotate_270_image width height a b :
  map (mapXY (fst (createMatrixFromBufferTransform
                     width height ANATIVEWINDOW_TRANSFORM_ROTATE_270)))
      (rect_corners a b)
  = [(0, width); (0, width - a); (b, width - a); (b, width)].
Proof. solve_points. Qed.

(** Whatever the content rectangle and the target rectangle are taken to
    be, the two quarter-turn matrices carry the one onto the other
    together only when the content is square: both translate by
    [width], and a quarter turn one way needs the other side. *)
Lemma quarter_turns_agree_only_on_squares width height a b c d :
  0 < width -> 0 < a -> 0 < b ->
  (forall p,
      p ∈ map (mapXY (fst (createMatrixFromBufferTransform
                             width height ANATIVEWINDOW_TRANSFORM_ROTATE_90)))
              (rect_corners a b) ->
      p ∈ rect_corners c d) ->
  (forall p,
      p ∈ map (mapXY (fst (createMatrixFromBufferTransform
                             width height ANATIVEWINDOW_TRANSFORM_ROTATE_270)))
              (rect_corners a b) ->
      p ∈ rect_corners c d) ->
  a = b.
Proof.
  intros Hw Ha Hb H90 H270.
  assert (H1 : (width, a) ∈ rect_corners c d).
  { apply H90. rewrite rotate_90_image. right. left. }
  assert (H2 : (b, width) ∈ rect_corners c d).
  { apply H270. rewrite rotate_270_image. do 3 right. left. }
  unfold rect_corners in H1, H2.
  rewrite !elem_of_cons, elem_of_nil in H1, H2.
  destruct H1 as [H1 | [H1 | [H1 | [H1 | []]]]];
    destruct H2 as [H2 | [H2 | [H2 | [H2 | []]]]];
    injection H1; injection H2; intros; lia.
Qed.

(** C1: for every orientation in IDENTITY, ROTATE_90, ROTATE_180,
    ROTATE_270 and every positive width and height the matrix should map
    the four corners of the logical content rectangle onto the four
    corners of the physical rectangle [0,width] x [0,height], in the
    rotated order, with no point outside it.  The builder does so for
    IDENTITY, ROTATE_90 and ROTATE_180, and not for ROTATE_270: on a
    buffer of 100 x 200 the content's corners go to (0,100), (0,-100),
    (100,-100), (100,100), two of them outside the buffer. *)
Theorem rotate_270_misses_buffer :
  mapped_corners 100 200 ANATIVEWINDOW_TRANSFORM_ROTATE_270
  = [(0, 100); (0, -100); (100, -100); (100, 100)]
  /\ forallb (in_rect 100 200)
             (mapped_corners 100 200 ANATIVEWINDOW_TRANSFORM_ROTATE_270) = false
  /\ ~ maps_content_onto_buffer 100 200 ANATIVEWINDOW_TRANSFORM_ROTATE_270
  /\ maps_content_onto_buffer 100 200 ANATIVEWINDOW_TRANSFORM_IDENTITY
  /\ maps_content_onto_buffer 100 200 ANATIVEWINDOW_TRANSFORM_ROTATE_90
  /\ maps_content_onto_buffer 100 200 ANATIVEWINDOW_TRANSFORM_ROTATE_180.
Proof.
  split; [reflexivity |]. split; [reflexivity |]. split.
  - rewrite rotate_270_maps_content_onto_buffer_iff. lia.
  - split; [apply identity_maps_content_onto_buffer |].
    split; [apply rotate_90_maps_content_onto_buffer |].
    apply rotate_180_maps_content_onto_buffer.
Qed.

End ContentRectangle.

(* ===================================================================== *)
(** * The shadow alphas *)
(* ===================================================================== *)

Section LightAlpha.

Lemma static_cast_uint8_range f n :
  static_cast_uint8 f = Ok n -> 0 <= n <= 255.
Proof.
  unfold static_cast_uint8. destruct f as [s | s | | s m e]; try discriminate.
  - intros [= <-]. lia.
  - cbv zeta. set (t := float_trunc (S754_finite s m e)).
    destruct (0 <=? t) eqn:H0; destruct (t <=? 255) eqn:H1; cbn [andb];
      try discriminate.
    intros [= <-]. apply Z.leb_le in H0, H1. lia.
Qed.

Lemma static_cast_uint8_trunc s m e n :
  static_cast_uint8 (S754_finite s m e) = Ok n ->
  n = float_trunc (S754_finite s m e).
Proof.
  unfold static_cast_uint8. cbv zeta.
  set (t := float_trunc (S754_finite s m e)).
  destruct ((0 <=? t) && (t <=? 255)); [| discriminate].
  intros [= <-]. reflexivity.
Qed.

(** The integer part of a float that is not negative is the floor of its
    exact value: the conversion rounds down, never to nearest. *)
Lemma float_trunc_floor m e :
  float_trunc (S754_finite false m e) = Qfloor (float_to_Q (S754_finite false m e)).
Proof.
  unfold float_trunc, float_to_Q.
  destruct (0 <=? e) eqn:He.
  - apply Z.leb_le in He.
    rewrite <- (Qfloor_Z (Z.pos m * 2 ^ e)).
    apply Qfloor_comp.
    rewrite inject_Z_mult. apply Qmult_comp; [reflexivity |].
    apply (Zpower_Qpower 2 e He).
  - apply Z.leb_gt in He.
    rewrite Zdiv_Qdiv. apply Qfloor_comp. unfold Qdiv.
    apply Qmult_comp; [reflexivity |].
    rewrite (Zpower_Qpower 2 (- e)) by lia.
    rewrite <- Qpower_opp. rewrite Z.opp_involutive. reflexivity.
Qed.

Lemma alpha_grid_checked :
  forallb alpha_grid_ok (map Z.of_nat (seq 0 257)) = true.
Proof. vm_compute. reflexivity. Qed.

(** On the grid of the 257 alphas [k/256] of [0,1] the stored integer is
    [floor (255 k / 256)]. *)
Lemma alpha_grid k :
  0 <= k <= 256 ->
  static_cast_uint8 (float_mul float_255 (float_of k (-8))) = Ok (255 * k / 256).
Proof.
  intros Hk.
  assert (Hin : In k (map Z.of_nat (seq 0 257))).
  { apply in_map_iff. exists (Z.to_nat k). split; [lia |].
    apply in_seq. lia. }
  pose proof (proj1 (forallb_forall _ _) alpha_grid_checked k Hin) as H.
  unfold alpha_grid_ok in H.
  destruct (static_cast_uint8 _); try discriminate.
  apply Z.eqb_eq in H. congruence.
Qed.

(** No clamp: an alpha of 2.0 gives the product 510.0, which [uint8_t]
    cannot hold; the conversion is undefined, not 255. *)
Lemma static_cast_uint8_of_two :
  float_mul float_255 (float_of 2 0) = float_of 510 0
  /\ static_cast_uint8 (float_mul float_255 (float_of 2 0)) = Undefined
  /\ spec_lightAlpha (float_of 2 0) = 255.
Proof. repeat split; vm_compute; reflexivity. Qed.

(** The call, once both conversions are defined. *)
Lemma setLightAlpha_defined w proxy p ambient spot na ns :
  renderProxies w !! proxy = Some p ->
  static_cast_uint8 (float_mul float_255 ambient) = Ok na ->
  static_cast_uint8 (float_mul float_255 spot) = Ok ns ->
  android_graphics_HardwareBufferRenderer_setLightAlpha proxy ambient spot w
  = Ok (set_renderProxies (<[proxy := setLightAlpha na ns p]>) w).
Proof.
  intros Hp Ha Hs. unfold android_graphics_HardwareBufferRenderer_setLightAlpha.
  rewrite Ha, Hs. simpl. unfold with_proxy. rewrite Hp. reflexivity.
Qed.

Lemma stored_lightAlpha_after w proxy p na ns :
  stored_lightAlpha proxy
    (Ok (set_renderProxies (<[proxy := setLightAlpha na ns p]>) w))
  = Some (na, ns).
Proof.
  unfold stored_lightAlpha, set_renderProxies. simpl.
  rewrite lookup_insert_eq. reflexivity.
Qed.

Lemma float_magnitude_pos m e : (0 < inject_Z (Z.pos m) * Qpower 2 e)%Q.
Proof.
  apply Qmult_lt_0_compat.
  - unfold Qlt. simpl. lia.
  - apply Qpower_0_lt. reflexivity.
Qed.

(** The integer part of a float that is a number is its exact value with
    the fraction cut off toward zero. *)
Lemma float_trunc_spec_trunc f :
  float_is_number f = true -> float_trunc f = spec_trunc (float_to_Q f).
Proof.
  destruct f as [s | s | | s m e]; try discriminate; intros _.
  - reflexivity.
  - pose proof (float_magnitude_pos m e) as Hpos.
    destruct s.
    + unfold spec_trunc.
      assert (Hneg : Qle_bool 0 (float_to_Q (S754_finite true m e)) = false).
      { apply not_true_is_false. intros H. apply Qle_bool_iff in H.
        simpl in H. apply (Qlt_not_le _ _ Hpos).
        apply Qopp_le_compat in H. rewrite Qopp_involutive in H. exact H. }
      rewrite Hneg. unfold Qceiling.
      change (float_trunc (S754_finite true m e))
        with (- float_trunc (S754_finite false m e)).
      rewrite float_trunc_floor. f_equal. apply Qfloor_comp.
      simpl. rewrite Qopp_involutive. reflexivity.
    + unfold spec_trunc.
      assert (Hnn : Qle_bool 0 (float_to_Q (S754_finite false m e)) = true).
      { apply Qle_bool_iff. simpl. apply Qlt_le_weak. exact Hpos. }
      rewrite Hnn. apply float_trunc_floor.
Qed.

(** The conversion returns exactly on the numbers whose integer part
    toward zero fits [uint8_t], and returns that integer part. *)
Lemma static_cast_uint8_number f :
  float_is_number f = true ->
  0 <= spec_trunc (float_to_Q f) <= 255 ->
  static_cast_uint8 f = Ok (spec_trunc (float_to_Q f)).
Proof.
  intros Hnum Hrange. rewrite <- (float_trunc_spec_trunc f Hnum) in Hrange |- *.
  destruct f as [s | s | | s m e]; try discriminate.
  - reflexivity.
  - unfold static_cast_uint8. cbv zeta.
    set (t := float_trunc (S754_finite s m e)) in *.
    assert (H0 : (0 <=? t) = true) by (apply Z.leb_le; lia).
    assert (H1 : (t <=? 255) = true) by (apply Z.leb_le; lia).
    rewrite H0, H1. reflexivity.
Qed.

Lemma static_cast_uint8_out f :
  float_is_number f = false \/ ~ (0 <= spec_trunc (float_to_Q f) <= 255) ->
  static_cast_uint8 f = Undefined.
Proof.
  intros [Hnum | Hout].
  - destruct f; try discriminate; reflexivity.
  - destruct (float_is_number f) eqn:Hnum;
      [| destruct f; try discriminate; reflexivity].
    rewrite <- (float_trunc_spec_trunc f Hnum) in Hout.
    destruct f as [s | s | | s m e]; try discriminate.
    + exfalso. apply Hout. simpl. lia.
    + unfold static_cast_uint8. cbv zeta.
      set (t := float_trunc (S754_finite s m e)) in *.
      destruct (0 <=? t) eqn:H0; destruct (t <=? 255) eqn:H1; try reflexivity.
      exfalso. apply Hout. apply Z.leb_le in H0, H1. lia.
Qed.

(** [static_cast_uint8] never aborts: it returns or is undefined. *)
Lemma static_cast_uint8_not_fatal f msg : static_cast_uint8 f <> Fatal msg.
Proof.
  unfold static_cast_uint8. destruct f; try discriminate.
  cbv zeta. destruct (_ && _); discriminate.
Qed.

Lemma setLightAlpha_undefined_l proxy ambient spot w :
  static_cast_uint8 (float_mul float_255 ambient) = Undefined ->
  android_graphics_HardwareBufferRenderer_setLightAlpha proxy ambient spot w
  = Undefined.
Proof.
  intros H. unfold android_graphics_HardwareBufferRenderer_setLightAlpha.
  rewrite H. reflexivity.
Qed.

Lemma setLightAlpha_undefined_r proxy ambient spot w :
  static_cast_uint8 (float_mul float_255 spot) = Undefined ->
  android_graphics_HardwareBufferRenderer_setLightAlpha proxy ambient spot w
  = Undefined.
Proof.
  intros H. unfold android_graphics_HardwareBufferRenderer_setLightAlpha.
  rewrite H.
  destruct (static_cast_uint8 (float_mul float_255 ambient)) as [n | msg |] eqn:E;
    try reflexivity.
  exfalso. exact (static_cast_uint8_not_fatal _ _ E).
Qed.

(** C2, as the code has it: for every pair of float inputs whose
    single-precision products [255 * value] are numbers with an integer
    part toward zero in [0,255], [setLightAlpha] stores for each that
    integer part: the fraction of the product is cut off toward zero
    (the floor of a product that is not negative, 0 for a product
    between -1 and 0), with no rounding to nearest and no clamp; for
    every other input the conversion, and with it the call, is
    undefined.  On the alphas [k/256] of [0,1] the stored value is
    [floor (255 k / 256)]; [setLightAlpha(0.0, 1.0)] stores (0, 255) and
    [setLightAlpha(0.5, 0.5)] stores (127, 127). *)
Theorem setLightAlpha_stores_truncation w proxy p :
  renderProxies w !! proxy = Some p ->
  (forall ambient spot,
      float_is_number (float_mul float_255 ambient) = true ->
      float_is_number (float_mul float_255 spot) = true ->
      0 <= spec_trunc (float_to_Q (float_mul float_255 ambient)) <= 255 ->
      0 <= spec_trunc (float_to_Q (float_mul float_255 spot)) <= 255 ->
      android_graphics_HardwareBufferRenderer_setLightAlpha proxy ambient spot w
      = Ok (set_renderProxies
              (<[proxy :=
                   setLightAlpha
                     (spec_trunc (float_to_Q (float_mul float_255 ambient)))
                     (spec_trunc (float_to_Q (float_mul float_255 spot))) p]>)
              w))
  /\ (forall ambient spot,
        float_is_number (float_mul float_255 ambient) = false
        \/ ~ (0 <= spec_trunc (float_to_Q (float_mul float_255 ambient)) <= 255)
        \/ float_is_number (float_mul float_255 spot) = false
        \/ ~ (0 <= spec_trunc (float_to_Q (float_mul float_255 spot)) <= 255) ->
        android_graphics_HardwareBufferRenderer_setLightAlpha
          proxy ambient spot w = Undefined)
  /\ (forall ka ks,
        0 <= ka <= 256 -> 0 <= ks <= 256 ->
        stored_lightAlpha proxy
          (android_graphics_HardwareBufferRenderer_setLightAlpha
             proxy (float_of ka (-8)) (float_of ks (-8)) w)
        = Some (255 * ka / 256, 255 * ks / 256))
  /\ stored_lightAlpha proxy
       (android_graphics_HardwareBufferRenderer_setLightAlpha
          proxy (S754_zero false) (float_of 1 0) w)
     = Some (0, 255)
  /\ stored_lightAlpha proxy
       (android_graphics_HardwareBufferRenderer_setLightAlpha
          proxy (float_of 1 (-1)) (float_of 1 (-1)) w)
     = Some (127, 127).
Proof.
  intros Hp. split; [| split; [| split; [| split]]].
  - intros ambient spot Hna Hns Hra Hrs.
    apply (setLightAlpha_defined w proxy p ambient spot _ _ Hp).
    + exact (static_cast_uint8_number _ Hna Hra).
    + exact (static_cast_uint8_number _ Hns Hrs).
  - intros ambient spot [Ha | [Ha | [Hs | Hs]]].
    + apply setLightAlpha_undefined_l, static_cast_uint8_out. left. exact Ha.
    + apply setLightAlpha_undefined_l, static_cast_uint8_out. right. exact Ha.
    + apply setLightAlpha_undefined_r, static_cast_uint8_out. left. exact Hs.
    + apply setLightAlpha_undefined_r, static_cast_uint8_out. right. exact Hs.
  - intros ka ks Hka Hks.
    rewrite (setLightAlpha_defined w proxy p _ _ _ _ Hp (alpha_grid ka Hka)
               (alpha_grid ks Hks)).
    apply stored_lightAlpha_after.
  - rewrite (setLightAlpha_defined w proxy p _ _ 0 255 Hp);
      [apply stored_lightAlpha_after | reflexivity | vm_compute; reflexivity].
  - rewrite (setLightAlpha_defined w proxy p _ _ 127 127 Hp);
      [apply stored_lightAlpha_after | vm_compute; reflexivity ..].
Qed.

End LightAlpha.

(* ===================================================================== *)
(** * The completion callback *)
(* ===================================================================== *)

Section Callback.

Context {C : Collaborators}.

(** Without a consumer nothing is wrapped and nothing changes. *)
Lemma createRenderCallback_null env w :
  createRenderCallback env nullptr w = Ok (RenderCallback_nullptr, w).
Proof. reflexivity. Qed.

(** With a consumer and a VM the closure holds a new global reference to
    the consumer. *)
Lemma createRenderCallback_closure env vm releaseCallback w :
  releaseCallback <> nullptr ->
  env_GetJavaVM env = Some vm ->
  createRenderCallback env releaseCallback w
  = Ok (RenderCallback_closure
          (mkJGlobalRefHolder vm (NewGlobalRef (globalRefs w))),
        set_globalRefs (<[NewGlobalRef (globalRefs w) := releaseCallback]>) w).
Proof.
  intros Hne Hvm. unfold createRenderCallback.
  destruct (releaseCallback =? nullptr) eqn:E.
  - apply Z.eqb_eq in E. contradiction.
  - rewrite Hvm. reflexivity.
Qed.

(** With a consumer and no VM the process aborts. *)
Lemma createRenderCallback_fatal env releaseCallback w :
  releaseCallback <> nullptr ->
  env_GetJavaVM env = None ->
  createRenderCallback env releaseCallback w = Fatal "Unable to get Java VM".
Proof.
  intros Hne Hvm. unfold createRenderCallback.
  destruct (releaseCallback =? nullptr) eqn:E.
  - apply Z.eqb_eq in E. contradiction.
  - rewrite Hvm. reflexivity.
Qed.

(** Whenever the wrapper returns, it has touched the table of global
    references only. *)
Lemma createRenderCallback_frame env releaseCallback w callback w' :
  createRenderCallback env releaseCallback w = Ok (callback, w') ->
  rootNodes w' = rootNodes w /\ renderProxies w' = renderProxies w
  /\ openFds w' = openFds w /\ javaCalls w' = javaCalls w
  /\ logcat w' = logcat w /\ classInfo w' = classInfo w.
Proof.
  unfold createRenderCallback.
  destruct (releaseCallback =? nullptr).
  - intros [= <- <-]. repeat split.
  - destruct (env_GetJavaVM env); [| discriminate].
    intros [= <- <-]. repeat split.
Qed.

(** The wrapper returns when there is no consumer or there is a VM. *)
Lemma createRenderCallback_returns env releaseCallback w :
  releaseCallback = nullptr \/ is_Some (env_GetJavaVM env) ->
  exists callback w', createRenderCallback env releaseCallback w = Ok (callback, w').
Proof.
  intros H. unfold createRenderCallback.
  destruct (releaseCallback =? nullptr) eqn:E; [eauto |].
  destruct H as [-> | [vm Hvm]]; [discriminate |].
  rewrite Hvm. eauto.
Qed.

(** C10: whenever the closure is invoked with a release-fence descriptor
    and a status, it releases the descriptor and passes its raw integer
    value, with the status, to the caller's sink; it never closes the
    descriptor: the [unique_fd] is left empty, so its destructor closes
    nothing, and the set of open descriptors is what it was. *)
Theorem RenderCallback_transfers_fence globalCallbackRef fd status w :
  let '(fd', w') := RenderCallback_body globalCallbackRef fd status w in
  fd_ fd' = -1
  /\ unique_fd_closes fd' = ∅
  /\ javaCalls w'
     = javaCalls w
       ++ [mkJavaCall (clazz (classInfo w)) (invokeRenderCallback (classInfo w))
                      [holder_object globalCallbackRef; fd_ fd; status]]
  /\ openFds w' = openFds w
  /\ openFds (unique_fd_destroy fd' w') = openFds w
  /\ globalRefs w' = globalRefs w
  /\ rootNodes w' = rootNodes w /\ renderProxies w' = renderProxies w.
Proof.
  unfold RenderCallback_body, unique_fd_release, unique_fd_destroy,
    unique_fd_closes. simpl.
  repeat split. apply difference_empty_L.
Qed.

(** Had the closure not released the descriptor, the destructor of the
    [unique_fd] would have closed it. *)
Lemma unique_fd_destroy_closes fd w :
  fd_ fd <> -1 -> fd_ fd ∉ openFds (unique_fd_destroy fd w).
Proof.
  intros Hne. unfold unique_fd_destroy, unique_fd_closes. simpl.
  destruct (fd_ fd =? -1) eqn:E; [apply Z.eqb_eq in E; contradiction |].
  rewrite elem_of_difference, elem_of_singleton. intros [_ Hnot].
  apply Hnot. reflexivity.
Qed.

End Callback.

(* ===================================================================== *)
(** * The render call *)
(* ===================================================================== *)

Section Render.

Context {C : Collaborators}.

(** The render call on a live proxy, once the consumer is wrapped: the
    parameters go into the proxy, and the result is that of the
    sync-and-draw step on the world that has them. *)
Lemma render_runs env proxy p transform width height colorspacePtr consumer
    w callback w2 :
  renderProxies w !! proxy = Some p ->
  createRenderCallback env consumer
    (add_logs
       (snd (createMatrixFromBufferTransform
               (static_cast_SkScalar width) (static_cast_SkScalar height)
               transform)) w)
  = Ok (callback, w2) ->
  android_graphics_HardwareBufferRenderer_render
    env proxy transform width height colorspacePtr consumer w
  = Ok (syncAndDrawFrame proxy
          (set_renderProxies
             (<[proxy :=
                  setHardwareBufferRenderParams
                    (mkHardwareBufferRenderParams
                       (fst (createMatrixFromBufferTransform
                               (static_cast_SkScalar width)
                               (static_cast_SkScalar height) transform))
                       (getNativeColorSpace colorspacePtr) callback) p]>) w2)).
Proof.
  intros Hp Hcb. unfold android_graphics_HardwareBufferRenderer_render.
  destruct (createMatrixFromBufferTransform _ _ _) as [matrix logs].
  simpl in Hcb |- *. rewrite Hcb. simpl.
  apply createRenderCallback_frame in Hcb as (_ & Hpx & _).
  unfold with_proxy. rewrite Hpx. simpl. rewrite Hp. reflexivity.
Qed.

(** A render call through a pointer that is not to a live proxy has no
    defined behaviour. *)
Lemma render_dangling env proxy transform width height colorspacePtr w :
  renderProxies w !! proxy = None ->
  android_graphics_HardwareBufferRenderer_render
    env proxy transform width height colorspacePtr nullptr w
  = Undefined.
Proof.
  intros Hp. unfold android_graphics_HardwareBufferRenderer_render.
  destruct (createMatrixFromBufferTransform _ _ _) as [matrix logs].
  simpl. unfold with_proxy. simpl. rewrite Hp. reflexivity.
Qed.

(** C5: for every call to render on a live proxy (with no consumer, or
    with a VM to wrap the consumer for), the proxy's render parameters
    are first set to exactly the matrix built from (width, height,
    transform), the resolved native colour space and the wrapped
    callback, and only then is the sync-and-draw step invoked, on the
    world that holds these parameters; render returns that step's status
    code. *)
Theorem render_sets_params_then_syncs env proxy p transform width height
    colorspacePtr consumer w :
  renderProxies w !! proxy = Some p ->
  consumer = nullptr \/ is_Some (env_GetJavaVM env) ->
  exists callback w2,
    let built :=
      createMatrixFromBufferTransform
        (static_cast_SkScalar width) (static_cast_SkScalar height) transform in
    let params :=
      mkHardwareBufferRenderParams
        (fst built) (getNativeColorSpace colorspacePtr) callback in
    let w3 :=
      set_renderProxies (<[proxy := setHardwareBufferRenderParams params p]>) w2 in
    createRenderCallback env consumer (add_logs (snd built) w) = Ok (callback, w2)
    /\ (renderProxies w3 !! proxy ≫= proxy_renderParams) = Some params
    /\ android_graphics_HardwareBufferRenderer_render
         env proxy transform width height colorspacePtr consumer w
       = Ok (fst (syncAndDrawFrame proxy w3), snd (syncAndDrawFrame proxy w3)).
Proof.
  intros Hp Hvm.
  destruct (createRenderCallback_returns env consumer
              (add_logs
                 (snd (createMatrixFromBufferTransform
                         (static_cast_SkScalar width)
                         (static_cast_SkScalar height) transform)) w) Hvm)
    as (callback & w2 & Hcb).
  exists callback, w2. cbv zeta. split; [exact Hcb |]. split.
  - unfold set_renderProxies. simpl. rewrite lookup_insert_eq. reflexivity.
  - rewrite (render_runs _ _ _ _ _ _ _ _ _ _ _ Hp Hcb).
    destruct (syncAndDrawFrame _ _). reflexivity.
Qed.

(** C6: for every render call whose completion sink is null the wrapper
    returns the null callback, creates no global reference and makes no
    call to the caller's side, even when no VM can be had; the render
    itself proceeds on a live proxy, with the null callback in the
    parameters, and returns the status of the sync-and-draw step. *)
Theorem render_without_sink env proxy p transform width height colorspacePtr w :
  renderProxies w !! proxy = Some p ->
  let built :=
    createMatrixFromBufferTransform
      (static_cast_SkScalar width) (static_cast_SkScalar height) transform in
  let params :=
    mkHardwareBufferRenderParams
      (fst built) (getNativeColorSpace colorspacePtr) RenderCallback_nullptr in
  let w3 :=
    set_renderProxies (<[proxy := setHardwareBufferRenderParams params p]>)
                      (add_logs (snd built) w) in
  createRenderCallback env nullptr (add_logs (snd built) w)
  = Ok (RenderCallback_nullptr, add_logs (snd built) w)
  /\ globalRefs w3 = globalRefs w
  /\ javaCalls w3 = javaCalls w
  /\ android_graphics_HardwareBufferRenderer_render
       env proxy transform width height colorspacePtr nullptr w
     = Ok (fst (syncAndDrawFrame proxy w3), snd (syncAndDrawFrame proxy w3)).
Proof.
  intros Hp. cbv zeta.
  split; [apply createRenderCallback_null |].
  split; [reflexivity |]. split; [reflexivity |].
  rewrite (render_runs _ _ _ _ _ _ _ _ _ _ _ Hp (createRenderCallback_null _ _)).
  destruct (syncAndDrawFrame _ _). reflexivity.
Qed.

(** An orientation without a label gets the identity matrix and one
    record in the log. *)
Lemma createMatrix_invalid width height transform :
  valid_transform transform = false ->
  createMatrixFromBufferTransform width height transform
  = (SkMatrix_I, [ALOGE invalid_transform_message]).
Proof.
  unfold valid_transform, createMatrixFromBufferTransform. intros H.
  apply orb_false_elim in H as [H H270].
  apply orb_false_elim in H as [H H180].
  apply orb_false_elim in H as [H0 H90].
  rewrite H0, H90, H180, H270. reflexivity.
Qed.

(** C3: for every orientation value outside IDENTITY, ROTATE_90,
    ROTATE_180, ROTATE_270 and every width and height the builder returns
    the identity matrix and writes exactly one record to the log (at
    error priority); no error reaches the caller: the render call on a
    live proxy proceeds with the identity transform and returns the
    status of the sync-and-draw step. *)
Theorem invalid_transform_falls_back_to_identity width height transform :
  valid_transform transform = false ->
  createMatrixFromBufferTransform width height transform
  = (SkMatrix_I, [ALOGE invalid_transform_message])
  /\ forall env proxy p jwidth jheight colorspacePtr consumer w,
       renderProxies w !! proxy = Some p ->
       consumer = nullptr \/ is_Some (env_GetJavaVM env) ->
       exists callback w2,
         let params :=
           mkHardwareBufferRenderParams
             SkMatrix_I (getNativeColorSpace colorspacePtr) callback in
         let w3 :=
           set_renderProxies
             (<[proxy := setHardwareBufferRenderParams params p]>) w2 in
         createRenderCallback env consumer
           (add_logs [ALOGE invalid_transform_message] w) = Ok (callback, w2)
         /\ logcat w2 = logcat w ++ [ALOGE invalid_transform_message]
         /\ android_graphics_HardwareBufferRenderer_render
              env proxy transform jwidth jheight colorspacePtr consumer w
            = Ok (fst (syncAndDrawFrame proxy w3), snd (syncAndDrawFrame proxy w3)).
Proof.
  intros Hinv. split; [exact (createMatrix_invalid width height transform Hinv) |].
  intros env proxy p jwidth jheight colorspacePtr consumer w Hp Hvm.
  destruct (createRenderCallback_returns env consumer
              (add_logs [ALOGE invalid_transform_message] w) Hvm)
    as (callback & w2 & Hcb).
  exists callback, w2. cbv zeta. split; [exact Hcb |]. split.
  - apply createRenderCallback_frame in Hcb as (_ & _ & _ & _ & Hlog & _).
    rewrite Hlog. reflexivity.
  - pose proof (createMatrix_invalid (static_cast_SkScalar jwidth)
                  (static_cast_SkScalar jheight) transform Hinv) as Hm.
    pose proof (render_runs env proxy p transform jwidth jheight
                  colorspacePtr consumer w callback w2 Hp) as Hr.
    rewrite Hm in Hr. simpl in Hr. rewrite (Hr Hcb).
    destruct (syncAndDrawFrame _ _). reflexivity.
Qed.

End Render.

(* ===================================================================== *)
(** * Roots, proxies and the finalizer *)
(* ===================================================================== *)

Section Lifetime.

Context {C : Collaborators} {COk : CollaboratorsOk C}.

Lemma createRootNode_runs env w :
  android_graphics_HardwareBufferRenderer_createRootNode env w
  = Ok (operator_new (live_addresses w),
        set_rootNodes
          (<[operator_new (live_addresses w) := fresh_root env]>) w).
Proof.
  unfold android_graphics_HardwareBufferRenderer_createRootNode,
    incStrong, setName, with_node, set_rootNodes. simpl.
  rewrite lookup_insert_eq. simpl. rewrite lookup_insert_eq. simpl.
  rewrite !insert_insert_eq. reflexivity.
Qed.

(** A root is not handed an address that is in use. *)
Lemma createRootNode_distinct_while_live env w node w' other :
  android_graphics_HardwareBufferRenderer_createRootNode env w = Ok (node, w') ->
  other ∈ live_addresses w -> node <> other.
Proof.
  rewrite createRootNode_runs. intros [= <- <-] Hlive Heq.
  rewrite <- Heq in Hlive. exact (operator_new_fresh _ Hlive).
Qed.

(** C8: every call to [createRootNode] allocates a root at an address no
    live object has, raises its strong count from 0 to 1 before it
    returns, and returns that address as the handle; nothing else
    changes.  A later call made while the root is alive returns another
    handle, and so does the next call, after which both roots are there. *)
Theorem createRootNode_allocates_strong_root env w :
  exists node w',
    android_graphics_HardwareBufferRenderer_createRootNode env w = Ok (node, w')
    /\ (node ∉ live_addresses w)
    /\ node <> nullptr
    /\ rootNodes w' !! node = Some (fresh_root env)
    /\ node_strong (fresh_root env) = 1%nat
    /\ (forall other, other <> node -> rootNodes w' !! other = rootNodes w !! other)
    /\ renderProxies w' = renderProxies w
    /\ (forall env2 w2 node2 w2',
          node ∈ live_addresses w2 ->
          android_graphics_HardwareBufferRenderer_createRootNode env2 w2
          = Ok (node2, w2') ->
          node2 <> node)
    /\ (forall env2, exists node2 w'',
          android_graphics_HardwareBufferRenderer_createRootNode env2 w'
          = Ok (node2, w'')
          /\ node2 <> node
          /\ rootNodes w'' !! node = Some (fresh_root env)
          /\ rootNodes w'' !! node2 = Some (fresh_root env2)).
Proof.
  exists (operator_new (live_addresses w)).
  exists (set_rootNodes (<[operator_new (live_addresses w) := fresh_root env]>) w).
  split; [apply createRootNode_runs |].
  split; [apply operator_new_fresh |].
  split; [apply operator_new_nonnull |].
  split; [simpl; apply lookup_insert_eq |].
  split; [reflexivity |].
  split; [intros other Hne; simpl; apply lookup_insert_ne; congruence |].
  split; [reflexivity |].
  assert (Hlive : forall w1, operator_new (live_addresses w) ∈ dom (rootNodes w1) ->
                             operator_new (live_addresses w1)
                             <> operator_new (live_addresses w)).
  { intros w1 Hin Heq. apply (operator_new_fresh (live_addresses w1)).
    rewrite Heq. unfold live_addresses. apply elem_of_union. left. exact Hin. }
  split.
  - intros env2 w2 node2 w2' Hin Hcall.
    exact (createRootNode_distinct_while_live env2 w2 node2 w2' _ Hcall Hin).
  - intros env2. eexists. eexists.
    split; [apply createRootNode_runs |].
    assert (Hne : operator_new
                    (live_addresses
                       (set_rootNodes
                          (<[operator_new (live_addresses w) := fresh_root env]>) w))
                  <> operator_new (live_addresses w)).
    { apply Hlive. simpl. rewrite dom_insert_L. apply elem_of_union. left.
      apply elem_of_singleton. reflexivity. }
    split; [exact Hne |]. split.
    + simpl. rewrite lookup_insert_ne by exact Hne. apply lookup_insert_eq.
    + simpl. apply lookup_insert_eq.
Qed.

(** The finalizer address is that of the destroy routine and of no other. *)
Lemma routine_at_getFinalizer :
  routine_at android_graphics_HardwareBufferRenderer_getFinalizer
  = Some routine_HardwareBufferRenderer_destroy.
Proof.
  unfold routine_at, android_graphics_HardwareBufferRenderer_getFinalizer,
    all_routines. cbn [find].
  repeat match goal with
         | |- context [address_of ?r =? address_of ?d] =>
             lazymatch r with
             | d => rewrite (Z.eqb_refl (address_of d))
             | _ =>
                 let E := fresh "E" in
                 destruct (address_of r =? address_of d) eqn:E;
                 [apply Z.eqb_eq, address_of_inj in E; discriminate E |]
             end
         end.
  reflexivity.
Qed.

(** What [delete proxy] does to a live proxy whose root is alive. *)
Lemma destroy_live_proxy w proxy p n :
  proxy <> nullptr ->
  renderProxies w !! proxy = Some p ->
  rootNodes w !! proxy_rootRenderNode p = Some n ->
  node_strong n <> 0%nat ->
  HardwareBufferRenderer_destroy proxy w
  = Ok (mkWorld
          (match node_strong n with
           | 1%nat => delete (proxy_rootRenderNode p) (rootNodes w)
           | k => <[proxy_rootRenderNode p := node_set_strong (Nat.pred k) n]>
                    (rootNodes w)
           end)
          (delete proxy (renderProxies w))
          (globalRefs w) (openFds w) (javaCalls w) (logcat w) (classInfo w)).
Proof.
  intros Hnull Hp Hn Hs. unfold HardwareBufferRenderer_destroy.
  destruct (proxy =? nullptr) eqn:E; [apply Z.eqb_eq in E; contradiction |].
  rewrite Hp. unfold decStrong. simpl. rewrite Hn.
  destruct (node_strong n) as [| [| k]]; [contradiction | reflexivity ..].
Qed.

(** A proxy that was created and never rendered can be destroyed, and the
    world is then as it was before the proxy was created. *)
Lemma create_then_destroy buffer root n w proxy w1 :
  rootNodes w !! root = Some n ->
  node_strong n <> 0%nat ->
  android_graphics_HardwareBufferRenderer_create buffer root w = Ok (proxy, w1) ->
  (renderProxies w1 !! proxy ≫= proxy_renderParams) = None
  /\ HardwareBufferRenderer_destroy proxy w1 = Ok w.
Proof.
  intros Hn Hs. unfold android_graphics_HardwareBufferRenderer_create.
  cbv zeta. unfold incStrong, with_node. rewrite Hn. simpl.
  unfold with_proxy. simpl. rewrite lookup_insert_eq. simpl.
  set (w' := set_rootNodes _ w).
  set (a := operator_new (live_addresses w')).
  intros [= <- <-].
  assert (Hfresh : renderProxies w !! a = None).
  { apply not_elem_of_dom. intros Hin.
    apply (operator_new_fresh (live_addresses w')). fold a.
    unfold live_addresses. apply elem_of_union. right. exact Hin. }
  split; [simpl; rewrite lookup_insert_eq; reflexivity |].
  unfold HardwareBufferRenderer_destroy.
  destruct (a =? nullptr) eqn:E.
  { apply Z.eqb_eq in E. exfalso. exact (operator_new_nonnull _ E). }
  simpl. rewrite lookup_insert_eq. simpl.
  unfold decStrong. simpl. rewrite lookup_insert_eq. simpl.
  clearbody a. subst w'.
  destruct (node_strong n) as [| k] eqn:Hk; [contradiction |].
  unfold set_rootNodes, set_renderProxies. simpl.
  rewrite !delete_insert_eq, (delete_id _ _ Hfresh), insert_insert_eq.
  replace (node_set_strong (S k) (node_set_strong (S (S k)) n)) with n
    by (destruct n; unfold node_set_strong; simpl in *; congruence).
  rewrite (insert_id _ _ _ Hn). destruct w. reflexivity.
Qed.

(** C9: the address [getFinalizer] returns is that of the destroy routine,
    so a call through it on a proxy handle is the explicit destroy
    operation; on every live proxy whose root is alive, whatever its
    render parameters (none, when render was never called), the call
    returns, the proxy with its buffer binding is gone and the root has
    one strong reference less. *)
Theorem finalizer_is_destroy :
  (forall ptr w,
      call_finalizer android_graphics_HardwareBufferRenderer_getFinalizer ptr w
      = HardwareBufferRenderer_destroy ptr w)
  /\ (forall w proxy p n,
        proxy <> nullptr ->
        renderProxies w !! proxy = Some p ->
        rootNodes w !! proxy_rootRenderNode p = Some n ->
        node_strong n <> 0%nat ->
        exists w',
          call_finalizer android_graphics_HardwareBufferRenderer_getFinalizer
                         proxy w = Ok w'
          /\ renderProxies w' = delete proxy (renderProxies w)
          /\ renderProxies w' !! proxy = None
          /\ rootNodes w'
             = match node_strong n with
               | 1%nat => delete (proxy_rootRenderNode p) (rootNodes w)
               | k => <[proxy_rootRenderNode p := node_set_strong (Nat.pred k) n]>
                        (rootNodes w)
               end)
  /\ (forall buffer root n w proxy w1,
        rootNodes w !! root = Some n ->
        node_strong n <> 0%nat ->
        android_graphics_HardwareBufferRenderer_create buffer root w
        = Ok (proxy, w1) ->
        (renderProxies w1 !! proxy ≫= proxy_renderParams) = None
        /\ call_finalizer android_graphics_HardwareBufferRenderer_getFinalizer
                          proxy w1 = Ok w).
Proof.
  assert (Hcall : forall ptr w,
             call_finalizer android_graphics_HardwareBufferRenderer_getFinalizer
                            ptr w
             = HardwareBufferRenderer_destroy ptr w).
  { intros ptr w. unfold call_finalizer. rewrite routine_at_getFinalizer.
    reflexivity. }
  split; [exact Hcall |]. split.
  - intros w proxy p n Hnull Hp Hn Hs. eexists.
    split; [rewrite Hcall; exact (destroy_live_proxy w proxy p n Hnull Hp Hn Hs) |].
    simpl. split; [reflexivity |]. split; [apply lookup_delete_eq | reflexivity].
  - intros buffer root n w proxy w1 Hn Hs Hcreate.
    rewrite Hcall. exact (create_then_destroy buffer root n w proxy w1 Hn Hs Hcreate).
Qed.

End Lifetime.

(* ===================================================================== *)
(** * The development at concrete inputs *)
(* ===================================================================== *)

(** The sample collaborators keep the promises of [CollaboratorsOk]. *)
Lemma sample_collaborators_ok : CollaboratorsOk sample_collaborators.
Proof.
  split; simpl.
  - intros live Hin.
    apply (is_fresh ({[nullptr]} ∪ live)). apply elem_of_union. right. exact Hin.
  - intros live Heq.
    apply (is_fresh ({[nullptr]} ∪ live)). apply elem_of_union. left.
    apply elem_of_singleton. exact Heq.
  - intros refs. apply not_elem_of_dom. apply is_fresh.
  - intros f g. destruct f, g; simpl; intros H; try reflexivity; discriminate H.
Qed.

Lemma sample_proxy_is_live :
  renderProxies sample_world !! sample_proxy = Some sample_proxy_state.
Proof. vm_compute. reflexivity. Qed.

(** An alpha of 3/8 gives the product 95.625: the code stores 95, the
    rounded value would be 96. *)
Lemma setLightAlpha_does_not_round :
  stored_lightAlpha sample_proxy
    (android_graphics_HardwareBufferRenderer_setLightAlpha
       sample_proxy (float_of 3 (-3)) (float_of 3 (-3)) sample_world)
  = Some (95, 95)
  /\ spec_lightAlpha (float_of 3 (-3)) = 96
  /\ stored_lightAlpha sample_proxy
       (android_graphics_HardwareBufferRenderer_setLightAlpha
          sample_proxy (float_of 3 (-3)) (float_of 3 (-3)) sample_world)
     <> Some (spec_lightAlpha (float_of 3 (-3)), spec_lightAlpha (float_of 3 (-3))).
Proof.
  split; [vm_compute; reflexivity |]. split; [vm_compute; reflexivity |].
  vm_compute. discriminate.
Qed.

Lemma setLightAlpha_stores_truncation_witness :
  renderProxies sample_world !! sample_proxy = Some sample_proxy_state
  /\ stored_lightAlpha sample_proxy
       (android_graphics_HardwareBufferRenderer_setLightAlpha
          sample_proxy (float_of 1 (-1)) (float_of 1 (-1)) sample_world)
     = Some (127, 127).
Proof.
  split; [vm_compute; reflexivity |].
  apply (setLightAlpha_stores_truncation sample_world sample_proxy
           sample_proxy_state).
  vm_compute; reflexivity.
Defined.

Lemma invalid_transform_falls_back_to_identity_witness :
  valid_transform ANATIVEWINDOW_TRANSFORM_MIRROR_HORIZONTAL = false
  /\ createMatrixFromBufferTransform
       100 200 ANATIVEWINDOW_TRANSFORM_MIRROR_HORIZONTAL
     = (SkMatrix_I, [ALOGE invalid_transform_message]).
Proof.
  split; [reflexivity |].
  apply (invalid_transform_falls_back_to_identity
           (C := sample_collaborators) 100 200
           ANATIVEWINDOW_TRANSFORM_MIRROR_HORIZONTAL).
  reflexivity.
Defined.

Lemma render_sets_params_then_syncs_witness :
  renderProxies sample_world !! sample_proxy = Some sample_proxy_state
  /\ (9 = nullptr \/ is_Some (env_GetJavaVM sample_env))
  /\ exists status w',
       android_graphics_HardwareBufferRenderer_render
         (C := sample_collaborators) sample_env sample_proxy
         ANATIVEWINDOW_TRANSFORM_ROTATE_90 100 200 5 9 sample_world
       = Ok (status, w').
Proof.
  split; [vm_compute; reflexivity |].
  split; [right; exists 77; reflexivity |].
  destruct (render_sets_params_then_syncs
              (C := sample_collaborators) sample_env sample_proxy
              sample_proxy_state ANATIVEWINDOW_TRANSFORM_ROTATE_90 100 200 5 9
              sample_world)
    as (callback & w2 & _ & _ & Hrender).
  - vm_compute; reflexivity.
  - right; exists 77; reflexivity.
  - eexists. eexists. exact Hrender.
Defined.

Lemma render_without_sink_witness :
  renderProxies sample_world !! sample_proxy = Some sample_proxy_state
  /\ exists status w',
       android_graphics_HardwareBufferRenderer_render
         (C := sample_collaborators) (mkJNIEnv None) sample_proxy
         ANATIVEWINDOW_TRANSFORM_IDENTITY 100 200 5 nullptr sample_world
       = Ok (status, w')
       /\ globalRefs sample_world = ∅.
Proof.
  split; [vm_compute; reflexivity |].
  destruct (render_without_sink
              (C := sample_collaborators) (mkJNIEnv None) sample_proxy
              sample_proxy_state ANATIVEWINDOW_TRANSFORM_IDENTITY 100 200 5
              sample_world)
    as (_ & _ & _ & Hrender).
  - vm_compute; reflexivity.
  - eexists. eexists. split; [exact Hrender | vm_compute; reflexivity].
Defined.

Lemma createRootNode_allocates_strong_root_witness :
  CollaboratorsOk sample_collaborators
  /\ exists node w',
       android_graphics_HardwareBufferRenderer_createRootNode
         (C := sample_collaborators) sample_env empty_world = Ok (node, w')
       /\ rootNodes w' !! node = Some (fresh_root sample_env).
Proof.
  split; [exact sample_collaborators_ok |].
  destruct (createRootNode_allocates_strong_root
              (C := sample_collaborators) (COk := sample_collaborators_ok)
              sample_env empty_world)
    as (node & w' & Hcall & _ & _ & Hnode & _).
  exists node, w'. split; [exact Hcall | exact Hnode].
Defined.

Lemma finalizer_is_destroy_witness :
  CollaboratorsOk sample_collaborators
  /\ call_finalizer (C := sample_collaborators)
       (android_graphics_HardwareBufferRenderer_getFinalizer
          (C := sample_collaborators)) sample_proxy sample_world
     = HardwareBufferRenderer_destroy sample_proxy sample_world.
Proof.
  split; [exact sample_collaborators_ok |].
  apply (finalizer_is_destroy
           (C := sample_collaborators) (COk := sample_collaborators_ok)).
Defined.

(** The finalizer on the sample proxy, which was never rendered: the
    proxy goes and the root is back to one strong reference. *)
Lemma finalizer_on_sample_proxy :
  match call_finalizer (C := sample_collaborators)
          (android_graphics_HardwareBufferRenderer_getFinalizer
             (C := sample_collaborators)) sample_proxy sample_world with
  | Ok w =>
      renderProxies w !! sample_proxy = None
      /\ (node_strong <$> rootNodes w !! 1) = Some 1%nat
  | _ => False
  end.
Proof. vm_compute. split; reflexivity. Qed.

(** The conversion of the [jint] dimensions: exact on the sizes of real
    buffers, rounded to 24 bits beyond [2^24]. *)
Lemma static_cast_SkScalar_examples :
  static_cast_SkScalar 100 = 100
  /\ static_cast_SkScalar 200 = 200
  /\ static_cast_SkScalar 16777217 = 16777216
  /\ static_cast_SkScalar 2147483647 = 2147483648.
Proof. repeat split; vm_compute; reflexivity. Qed.

(* ===================================================================== *)
(** * More on the transform builder *)
(* ===================================================================== *)

Section TransformBuilderMore.

Implicit Types (width height : SkScalar) (transform : Z) (p q : SkPoint).

(** The builder has four outcomes: the three rotations and the identity. *)
Lemma createMatrix_cases width height transform :
  fst (createMatrixFromBufferTransform width height transform)
  = mkSkMatrix 0 (-1) width 1 0 0 0 0 1
  \/ fst (createMatrixFromBufferTransform width height transform)
     = mkSkMatrix (-1) 0 width 0 (-1) height 0 0 1
  \/ fst (createMatrixFromBufferTransform width height transform)
     = mkSkMatrix 0 1 0 (-1) 0 width 0 0 1
  \/ fst (createMatrixFromBufferTransform width height transform) = SkMatrix_I.
Proof.
  unfold createMatrixFromBufferTransform.
  destruct (transform =? ANATIVEWINDOW_TRANSFORM_ROTATE_90).
  { left. apply SkMatrix_eq; simpl; lia. }
  destruct (transform =? ANATIVEWINDOW_TRANSFORM_ROTATE_180).
  { right. left. apply SkMatrix_eq; simpl; lia. }
  destruct (transform =? ANATIVEWINDOW_TRANSFORM_ROTATE_270).
  { right. right. left. apply SkMatrix_eq; simpl; lia. }
  right. right. right.
  destruct (transform =? ANATIVEWINDOW_TRANSFORM_IDENTITY); reflexivity.
Qed.

(** X1: whatever the width, the height and the orientation value, the
    matrix the builder returns is a rigid motion: it has no perspective,
    its linear part has determinant 1 (no mirroring, no scaling), and it
    keeps the distance between any two points. *)
Theorem createMatrix_is_rigid width height transform :
  hasPerspective (fst (createMatrixFromBufferTransform width height transform))
  = false
  /\ det2 (fst (createMatrixFromBufferTransform width height transform)) = 1
  /\ forall p q,
       dist2 (mapXY (fst (createMatrixFromBufferTransform width height transform)) p)
             (mapXY (fst (createMatrixFromBufferTransform width height transform)) q)
       = dist2 p q.
Proof.
  destruct (createMatrix_cases width height transform) as [H | [H | [H | H]]];
    rewrite H; (split; [reflexivity |]); (split; [reflexivity |]);
    intros [x1 y1] [x2 y2]; unfold dist2, mapXY; simpl; ring.
Qed.

(** X2: the two quarter-turn matrices built for one width undo each other,
    whatever the heights they were built for, and the half-turn matrix
    undoes itself. *)
Theorem quarter_turns_cancel width height height' p :
  mapXY (fst (createMatrixFromBufferTransform
                width height ANATIVEWINDOW_TRANSFORM_ROTATE_270))
        (mapXY (fst (createMatrixFromBufferTransform
                       width height' ANATIVEWINDOW_TRANSFORM_ROTATE_90)) p) = p
  /\ mapXY (fst (createMatrixFromBufferTransform
                   width height ANATIVEWINDOW_TRANSFORM_ROTATE_90))
           (mapXY (fst (createMatrixFromBufferTransform
                          width height' ANATIVEWINDOW_TRANSFORM_ROTATE_270)) p) = p
  /\ mapXY (fst (createMatrixFromBufferTransform
                   width height ANATIVEWINDOW_TRANSFORM_ROTATE_180))
           (mapXY (fst (createMatrixFromBufferTransform
                          width height ANATIVEWINDOW_TRANSFORM_ROTATE_180)) p) = p.
Proof.
  destruct p as [x y].
  rewrite createMatrix_rotate_90_point, !createMatrix_rotate_270_point,
    createMatrix_rotate_90_point, !createMatrix_rotate_180_point.
  repeat split; f_equal; lia.
Qed.

Lemma valid_transform_cases transform :
  valid_transform transform = true ->
  transform = ANATIVEWINDOW_TRANSFORM_IDENTITY
  \/ transform = ANATIVEWINDOW_TRANSFORM_ROTATE_90
  \/ transform = ANATIVEWINDOW_TRANSFORM_ROTATE_180
  \/ transform = ANATIVEWINDOW_TRANSFORM_ROTATE_270.
Proof.
  unfold valid_transform. intros H.
  apply orb_prop in H as [H | H]; [| right; right; right; apply Z.eqb_eq, H].
  apply orb_prop in H as [H | H]; [| right; right; left; apply Z.eqb_eq, H].
  apply orb_prop in H as [H | H]; [left | right; left]; apply Z.eqb_eq, H.
Qed.

(** X3: the builder writes to the log exactly when the orientation is
    not one of the four it has a label for, and then one record; the
    two mirror transforms of the NDK are among those it rejects. *)
Theorem createMatrix_logs_iff_invalid width height transform :
  (snd (createMatrixFromBufferTransform width height transform) = []
   <-> valid_transform transform = true)
  /\ (length (snd (createMatrixFromBufferTransform width height transform))
      <= 1)%nat
  /\ valid_transform ANATIVEWINDOW_TRANSFORM_MIRROR_HORIZONTAL = false
  /\ valid_transform ANATIVEWINDOW_TRANSFORM_MIRROR_VERTICAL = false.
Proof.
  split; [| split; [| split; reflexivity]].
  - destruct (valid_transform transform) eqn:Hv.
    + split; [reflexivity | intros _].
      destruct (valid_transform_cases transform Hv) as [-> | [-> | [-> | ->]]];
        reflexivity.
    + rewrite (createMatrix_invalid width height transform Hv). simpl.
      split; discriminate.
  - destruct (valid_transform transform) eqn:Hv.
    + destruct (valid_transform_cases transform Hv) as [-> | [-> | [-> | ->]]];
        simpl; lia.
    + rewrite (createMatrix_invalid width height transform Hv). simpl. lia.
Qed.

(** X4: the height reaches the matrix through the ROTATE_180 label only:
    for every other orientation value the result is the same for all
    heights. *)
Theorem createMatrix_ignores_height width height height' transform :
  transform <> ANATIVEWINDOW_TRANSFORM_ROTATE_180 ->
  createMatrixFromBufferTransform width height transform
  = createMatrixFromBufferTransform width height' transform.
Proof.
  intros Hne. unfold createMatrixFromBufferTransform.
  destruct (transform =? ANATIVEWINDOW_TRANSFORM_ROTATE_90); [reflexivity |].
  destruct (transform =? ANATIVEWINDOW_TRANSFORM_ROTATE_180) eqn:E;
    [apply Z.eqb_eq in E; contradiction | reflexivity].
Qed.

(** X5: on a square buffer every orientation the builder has a label for
    carries the corners of the content onto the corners of the buffer. *)
Theorem square_buffer_maps_content_onto_buffer width transform :
  valid_transform transform = true ->
  maps_content_onto_buffer width width transform.
Proof.
  intros Hv.
  destruct (valid_transform_cases transform Hv) as [-> | [-> | [-> | ->]]].
  - apply identity_maps_content_onto_buffer.
  - apply rotate_90_maps_content_onto_buffer.
  - apply rotate_180_maps_content_onto_buffer.
  - apply rotate_270_maps_content_onto_buffer_iff. reflexivity.
Qed.

End TransformBuilderMore.

(* ===================================================================== *)
(** * More on the shadow alphas *)
(* ===================================================================== *)

Section LightAlphaMore.

Lemma alpha_wide_grid_checked :
  forallb alpha_wide_grid_ok (map (fun i => Z.of_nat i - 1024) (seq 0 2049)) = true.
Proof. vm_compute. reflexivity. Qed.

Lemma outcome_Z_eqb_eq a b : outcome_Z_eqb a b = true -> a = b.
Proof.
  destruct a, b; simpl; try discriminate; try reflexivity.
  intros H. apply Z.eqb_eq in H. congruence.
Qed.

(** On the alphas [k/256] from -4 to 4 the conversion is the quotient
    toward zero of [255 k] by 256, when that fits [uint8_t]. *)
Lemma alpha_wide_grid k :
  -1024 <= k <= 1024 ->
  static_cast_uint8 (float_mul float_255 (float_of k (-8))) = alpha_by_quotient k.
Proof.
  intros Hk. apply outcome_Z_eqb_eq.
  assert (Hin : In k (map (fun i => Z.of_nat i - 1024) (seq 0 2049))).
  { apply in_map_iff. exists (Z.to_nat (k + 1024)). split; [lia |].
    apply in_seq. lia. }
  exact (proj1 (forallb_forall _ _) alpha_wide_grid_checked k Hin).
Qed.

Lemma alpha_by_quotient_defined k :
  -1 <= k <= 257 -> alpha_by_quotient k = Ok (Z.quot (255 * k) 256).
Proof.
  intros Hk. unfold alpha_by_quotient. cbv zeta.
  assert (H0 : 0 <= Z.quot (255 * k) 256).
  { destruct (Z.eq_dec k (-1)) as [-> | Hne]; [vm_compute; discriminate |].
    apply Z.quot_pos; lia. }
  assert (H1 : Z.quot (255 * k) 256 <= 255).
  { destruct (Z.eq_dec k (-1)) as [-> | Hne]; [vm_compute; discriminate |].
    rewrite Z.quot_div_nonneg by lia.
    apply Z.lt_succ_r. apply Z.div_lt_upper_bound; lia. }
  apply Z.leb_le in H0, H1. rewrite H0, H1. reflexivity.
Qed.

Lemma alpha_by_quotient_undefined k :
  k < -1 \/ 257 < k -> alpha_by_quotient k = Undefined.
Proof.
  intros Hk. unfold alpha_by_quotient. cbv zeta.
  destruct Hk as [Hk | Hk].
  - assert (H : Z.quot (255 * k) 256 < 0).
    { rewrite <- (Z.opp_involutive (255 * k)), Z.quot_opp_l by lia.
      rewrite Z.quot_div_nonneg by lia.
      assert (1 <= (- (255 * k)) / 256) by (apply Z.div_le_lower_bound; lia).
      lia. }
    apply Z.leb_gt in H. rewrite H. reflexivity.
  - assert (H : 255 < Z.quot (255 * k) 256).
    { rewrite Z.quot_div_nonneg by lia.
      assert (256 <= (255 * k) / 256) by (apply Z.div_le_lower_bound; lia).
      lia. }
    apply Z.leb_gt in H. rewrite H. rewrite andb_false_r. reflexivity.
Qed.

(** X6: there is no clamp at either end.  On the alphas [k/256] between
    -4 and 4 the call is defined exactly from -1/256 to 257/256, where it
    stores the quotient toward zero of [255 k] by 256 (so -1/256 stores 0
    and 257/256 stores 255); an alpha of -2/256 or less, or of 258/256
    or more, in either position, makes the call undefined, whatever the
    proxy. *)
Theorem setLightAlpha_out_of_range w proxy p :
  renderProxies w !! proxy = Some p ->
  (forall ka ks,
      -1 <= ka <= 257 -> -1 <= ks <= 257 ->
      stored_lightAlpha proxy
        (android_graphics_HardwareBufferRenderer_setLightAlpha
           proxy (float_of ka (-8)) (float_of ks (-8)) w)
      = Some (Z.quot (255 * ka) 256, Z.quot (255 * ks) 256))
  /\ (forall ka ks,
        -1024 <= ka <= 1024 -> -1024 <= ks <= 1024 ->
        ka < -1 \/ 257 < ka \/ ks < -1 \/ 257 < ks ->
        android_graphics_HardwareBufferRenderer_setLightAlpha
          proxy (float_of ka (-8)) (float_of ks (-8)) w
        = Undefined).
Proof.
  intros Hp. split.
  - intros ka ks Hka Hks.
    rewrite (setLightAlpha_defined w proxy p _ _
               (Z.quot (255 * ka) 256) (Z.quot (255 * ks) 256) Hp).
    + apply stored_lightAlpha_after.
    + rewrite alpha_wide_grid by lia. apply alpha_by_quotient_defined, Hka.
    + rewrite alpha_wide_grid by lia. apply alpha_by_quotient_defined, Hks.
  - intros ka ks Hka Hks Hout.
    assert (Hcases : (ka < -1 \/ 257 < ka) \/ (ks < -1 \/ 257 < ks)) by lia.
    destruct Hcases as [Ha | Hs].
    + apply setLightAlpha_undefined_l.
      rewrite alpha_wide_grid by lia. apply alpha_by_quotient_undefined, Ha.
    + apply setLightAlpha_undefined_r.
      rewrite alpha_wide_grid by lia. apply alpha_by_quotient_undefined, Hs.
Qed.

(** X7: on the alphas [k/256] of [0,1] the stored value grows with the
    alpha, is 255 for the alpha 1.0 only, and is 0 for the alphas 0 and
    1/256 only. *)
Theorem stored_alpha_monotone ka kb :
  0 <= ka <= kb -> kb <= 256 ->
  exists na nb,
    static_cast_uint8 (float_mul float_255 (float_of ka (-8))) = Ok na
    /\ static_cast_uint8 (float_mul float_255 (float_of kb (-8))) = Ok nb
    /\ na <= nb
    /\ (nb = 255 <-> kb = 256)
    /\ (nb = 0 <-> kb <= 1).
Proof.
  intros Hka Hkb.
  exists (255 * ka / 256), (255 * kb / 256).
  split; [apply alpha_grid; lia |]. split; [apply alpha_grid; lia |].
  split; [apply Z.div_le_mono; lia |].
  split; split; intros H.
  - destruct (Z.eq_dec kb 256) as [E | E]; [exact E | exfalso].
    assert (255 * kb / 256 < 255) by (apply Z.div_lt_upper_bound; lia). lia.
  - subst kb. reflexivity.
  - destruct (Z_le_gt_dec kb 1) as [E | E]; [exact E | exfalso].
    assert (1 <= 255 * kb / 256) by (apply Z.div_le_lower_bound; lia). lia.
  - apply Z.div_small. lia.
Qed.

(** X8: an alpha that is NaN or infinite, in either position, makes the
    call undefined whatever the other alpha and the proxy; zeros of
    either sign are stored as 0. *)
Theorem setLightAlpha_special_values proxy other w :
  android_graphics_HardwareBufferRenderer_setLightAlpha proxy S754_nan other w
  = Undefined
  /\ android_graphics_HardwareBufferRenderer_setLightAlpha proxy other S754_nan w
     = Undefined
  /\ (forall s,
        android_graphics_HardwareBufferRenderer_setLightAlpha
          proxy (S754_infinity s) other w = Undefined
        /\ android_graphics_HardwareBufferRenderer_setLightAlpha
             proxy other (S754_infinity s) w = Undefined)
  /\ (forall s1 s2 p,
        renderProxies w !! proxy = Some p ->
        stored_lightAlpha proxy
          (android_graphics_HardwareBufferRenderer_setLightAlpha
             proxy (S754_zero s1) (S754_zero s2) w)
        = Some (0, 0)).
Proof.
  split; [apply setLightAlpha_undefined_l; reflexivity |].
  split; [apply setLightAlpha_undefined_r; reflexivity |].
  split.
  - intros s. split;
      [apply setLightAlpha_undefined_l | apply setLightAlpha_undefined_r];
      reflexivity.
  - intros s1 s2 p Hp.
    rewrite (setLightAlpha_defined w proxy p _ _ 0 0 Hp);
      [apply stored_lightAlpha_after | reflexivity ..].
Qed.

(** X9: the two light setters do not disturb each other: on one proxy or
    on two, in either order, they leave the same world (or are both
    undefined), and each keeps the root, the buffer binding and the
    render parameters of the proxy it writes to. *)
Theorem light_setters_commute pg pa x y z radius ambient spot w :
  (w1 ← android_graphics_HardwareBufferRenderer_setLightGeometry
          pg x y z radius w;
   android_graphics_HardwareBufferRenderer_setLightAlpha pa ambient spot w1)
  = (w1 ← android_graphics_HardwareBufferRenderer_setLightAlpha
            pa ambient spot w;
     android_graphics_HardwareBufferRenderer_setLightGeometry
       pg x y z radius w1)
  /\ (forall p na ns,
        renderProxies w !! pa = Some p ->
        static_cast_uint8 (float_mul float_255 ambient) = Ok na ->
        static_cast_uint8 (float_mul float_255 spot) = Ok ns ->
        exists w' p',
          android_graphics_HardwareBufferRenderer_setLightAlpha
            pa ambient spot w = Ok w'
          /\ renderProxies w' !! pa = Some p'
          /\ proxy_lightAlpha p' = Some (na, ns)
          /\ proxy_lightGeometry p' = proxy_lightGeometry p
          /\ proxy_renderParams p' = proxy_renderParams p
          /\ proxy_hardwareBuffer p' = proxy_hardwareBuffer p
          /\ proxy_rootRenderNode p' = proxy_rootRenderNode p
          /\ (forall other, other <> pa ->
                renderProxies w' !! other = renderProxies w !! other)
          /\ rootNodes w' = rootNodes w).
Proof.
  split.
  - unfold android_graphics_HardwareBufferRenderer_setLightAlpha,
      android_graphics_HardwareBufferRenderer_setLightGeometry, with_proxy.
    destruct (static_cast_uint8 (float_mul float_255 ambient)) as [na | m1 |] eqn:Ea;
      [| exfalso; exact (static_cast_uint8_not_fatal _ _ Ea)
       | simpl; destruct (renderProxies w !! pg); reflexivity].
    destruct (static_cast_uint8 (float_mul float_255 spot)) as [ns | m2 |] eqn:Es;
      [| exfalso; exact (static_cast_uint8_not_fatal _ _ Es)
       | simpl; destruct (renderProxies w !! pg); reflexivity].
    simpl.
    destruct (decide (pg = pa)) as [-> | Hne].
    + destruct (renderProxies w !! pa) as [p |] eqn:Hp; simpl; [| reflexivity].
      rewrite !lookup_insert_eq. simpl. unfold set_renderProxies. simpl.
      rewrite !insert_insert_eq. reflexivity.
    + destruct (renderProxies w !! pg) as [g |] eqn:Hg;
        destruct (renderProxies w !! pa) as [a |] eqn:Ha; simpl;
        rewrite ?lookup_insert_ne by congruence; rewrite ?Hg, ?Ha; simpl;
        try reflexivity.
      unfold set_renderProxies. simpl.
      rewrite (insert_insert_ne (renderProxies w) pa pg) by congruence.
      reflexivity.
  - intros p na ns Hp Ha Hs.
    exists (set_renderProxies (<[pa := setLightAlpha na ns p]>) w),
           (setLightAlpha na ns p).
    split; [exact (setLightAlpha_defined w pa p ambient spot na ns Hp Ha Hs) |].
    split; [simpl; apply lookup_insert_eq |].
    repeat (split; [reflexivity |]).
    split; [| reflexivity].
    intros other Hne. simpl. apply lookup_insert_ne. congruence.
Qed.

End LightAlphaMore.

(* ===================================================================== *)
(** * The conversion of the dimensions *)
(* ===================================================================== *)

Section Dimensions.

Lemma digits2_pos_bounds (m : positive) :
  2 ^ (Z.pos (digits2_pos m) - 1) <= Z.pos m < 2 ^ Z.pos (digits2_pos m).
Proof.
  induction m as [m IH | m IH |]; simpl digits2_pos.
  - rewrite Pos2Z.inj_succ.
    replace (Z.succ (Z.pos (digits2_pos m)) - 1)
      with (Z.succ (Z.pos (digits2_pos m) - 1)) by lia.
    rewrite !Z.pow_succ_r by lia. lia.
  - rewrite Pos2Z.inj_succ.
    replace (Z.succ (Z.pos (digits2_pos m)) - 1)
      with (Z.succ (Z.pos (digits2_pos m) - 1)) by lia.
    rewrite !Z.pow_succ_r by lia. lia.
  - simpl. lia.
Qed.

(** Appending [k] zero bits multiplies by [2^k] and adds [k] digits. *)
Lemma iter_xO_spec (m k : positive) :
  Z.pos (Pos.iter xO m k) = Z.pos m * 2 ^ Z.pos k
  /\ digits2_pos (Pos.iter xO m k) = (digits2_pos m + k)%positive.
Proof.
  induction k as [| k IH] using Pos.peano_ind.
  - simpl. split; lia.
  - rewrite Pos.iter_succ. destruct IH as [IH1 IH2]. split.
    + rewrite Pos2Z.inj_xO, IH1, Pos2Z.inj_succ, Z.pow_succ_r by lia. lia.
    + simpl. rewrite IH2. lia.
Qed.

Lemma fexp_small e : -125 <= e -> fexp 24 128 e = e - 24.
Proof. intros H. unfold fexp, emin. lia. Qed.

(** A significand of exactly 24 bits needs no rounding. *)
Lemma binary_round_aux_exact (s : bool) (mz : positive) (ez : Z) :
  digits2_pos mz = 24%positive -> -149 <= ez <= 104 ->
  binary_round_aux 24 128 s (Z.pos mz) ez loc_Exact = S754_finite s mz ez.
Proof.
  intros Hd He.
  assert (Hshift : fexp 24 128 (Zdigits2 (Z.pos mz) + ez) - ez = 0).
  { unfold Zdigits2. rewrite Hd. unfold fexp, emin. lia. }
  unfold binary_round_aux, shr_fexp. rewrite Hshift. simpl.
  change (Z.pos (digits2_pos mz)) with (Zdigits2 (Z.pos mz)).
  rewrite Hshift. simpl.
  assert (Hle : (ez <=? 104) = true) by (apply Z.leb_le; lia).
  change (128 - 24) with 104. rewrite Hle. reflexivity.
Qed.

Lemma binary_round_small (s : bool) (m : positive) :
  Z.pos m < 2 ^ 24 ->
  float_trunc (binary_round 24 128 s m 0) = if s then - Z.pos m else Z.pos m.
Proof.
  intros Hm.
  pose proof (digits2_pos_bounds m) as [Hlo Hhi].
  assert (Hd : Z.pos (digits2_pos m) <= 24).
  { destruct (Z_le_gt_dec (Z.pos (digits2_pos m)) 24) as [H | H]; [exact H |].
    exfalso. assert (2 ^ 24 <= 2 ^ (Z.pos (digits2_pos m) - 1))
      by (apply Z.pow_le_mono_r; lia). lia. }
  unfold binary_round, shl_align.
  rewrite fexp_small by lia.
  destruct (Z.pos (digits2_pos m) + 0 - 24 - 0) as [| q | q] eqn:Hq; try lia.
  - rewrite binary_round_aux_exact; [| lia | lia].
    unfold float_trunc. simpl. destruct s; lia.
  - destruct (iter_xO_spec m q) as [Hval Hdig].
    rewrite binary_round_aux_exact; [| rewrite Hdig; lia | lia].
    unfold float_trunc.
    assert (Hneg : (0 <=? Z.pos (digits2_pos m) + 0 - 24) = false)
      by (apply Z.leb_gt; lia).
    rewrite Hneg. rewrite Hval.
    replace (- (Z.pos (digits2_pos m) + 0 - 24)) with (Z.pos q) by lia.
    rewrite Z.div_mul by (apply Z.pow_nonzero; lia).
    reflexivity.
Qed.

(** X10: the conversion of a [jint] dimension to [SkScalar] keeps every
    integer of magnitude below [2^24], so for such a width and height
    render builds its matrix from the very values it was given; the bound
    is sharp: [2^24 + 1] becomes [2^24]. *)
Theorem static_cast_SkScalar_exact width height transform :
  - 2 ^ 24 < width < 2 ^ 24 -> - 2 ^ 24 < height < 2 ^ 24 ->
  static_cast_SkScalar width = width
  /\ static_cast_SkScalar height = height
  /\ createMatrixFromBufferTransform
       (static_cast_SkScalar width) (static_cast_SkScalar height) transform
     = createMatrixFromBufferTransform width height transform
  /\ static_cast_SkScalar (2 ^ 24 + 1) = 2 ^ 24.
Proof.
  assert (Hexact : forall n, - 2 ^ 24 < n < 2 ^ 24 -> static_cast_SkScalar n = n).
  { intros n Hn.
    unfold static_cast_SkScalar, binary_normalize, float_prec, float_emax.
    destruct n as [| m | m].
    - reflexivity.
    - apply (binary_round_small false m). lia.
    - apply (binary_round_small true m). lia. }
  intros Hw Hh. rewrite (Hexact width Hw), (Hexact height Hh).
  split; [reflexivity |]. split; [reflexivity |]. split; [reflexivity |].
  vm_compute. reflexivity.
Qed.

End Dimensions.

(* ===================================================================== *)
(** * More on the callback and the render call *)
(* ===================================================================== *)

Section RenderMore.

Context {C : Collaborators} {COk : CollaboratorsOk C}.

(** X11: wrapping a consumer takes a global reference that was not in
    use, records the consumer under it and leaves every other reference
    as it was; wrapping again, even the same consumer, takes another
    reference and keeps the first. *)
Theorem createRenderCallback_takes_fresh_reference env vm consumer w :
  consumer <> nullptr ->
  env_GetJavaVM env = Some vm ->
  exists ref w',
    createRenderCallback env consumer w
    = Ok (RenderCallback_closure (mkJGlobalRefHolder vm ref), w')
    /\ globalRefs w !! ref = None
    /\ globalRefs w' !! ref = Some consumer
    /\ (forall r, r <> ref -> globalRefs w' !! r = globalRefs w !! r)
    /\ exists ref2 w'',
         createRenderCallback env consumer w'
         = Ok (RenderCallback_closure (mkJGlobalRefHolder vm ref2), w'')
         /\ ref2 <> ref
         /\ globalRefs w'' !! ref = Some consumer
         /\ globalRefs w'' !! ref2 = Some consumer.
Proof.
  intros Hne Hvm.
  exists (NewGlobalRef (globalRefs w)).
  exists (set_globalRefs (<[NewGlobalRef (globalRefs w) := consumer]>) w).
  split; [apply createRenderCallback_closure; assumption |].
  split; [apply NewGlobalRef_fresh |].
  split; [simpl; apply lookup_insert_eq |].
  split; [intros r Hr; simpl; apply lookup_insert_ne; congruence |].
  set (w' := set_globalRefs (<[NewGlobalRef (globalRefs w) := consumer]>) w).
  exists (NewGlobalRef (globalRefs w')).
  exists (set_globalRefs (<[NewGlobalRef (globalRefs w') := consumer]>) w').
  split; [apply createRenderCallback_closure; assumption |].
  assert (Hdiff : NewGlobalRef (globalRefs w') <> NewGlobalRef (globalRefs w)).
  { intros Heq. pose proof (NewGlobalRef_fresh (globalRefs w')) as Hfresh.
    rewrite Heq in Hfresh. unfold w' in Hfresh. simpl in Hfresh.
    rewrite lookup_insert_eq in Hfresh. discriminate. }
  split; [exact Hdiff |]. split.
  - simpl. rewrite lookup_insert_ne by exact Hdiff. apply lookup_insert_eq.
  - simpl. apply lookup_insert_eq.
Qed.

(** X12: a render call with a consumer aborts the process when the VM
    cannot be had, whatever the proxy, the orientation and the sizes; the
    sync-and-draw step is not reached. *)
Theorem render_aborts_without_vm env proxy transform width height
    colorspacePtr consumer w :
  consumer <> nullptr ->
  env_GetJavaVM env = None ->
  android_graphics_HardwareBufferRenderer_render
    env proxy transform width height colorspacePtr consumer w
  = Fatal "Unable to get Java VM".
Proof.
  intros Hne Hvm. unfold android_graphics_HardwareBufferRenderer_render.
  destruct (createMatrixFromBufferTransform _ _ _) as [matrix logs].
  rewrite (createRenderCallback_fatal env consumer _ Hne Hvm). reflexivity.
Qed.

(** X13: a descriptor is handed to the caller once.  A second invocation
    of the closure on the same [unique_fd] passes -1, so the two calls up
    are the descriptor and then -1, and no descriptor is closed by
    either. *)
Theorem RenderCallback_second_invocation globalCallbackRef fd status status' w :
  let '(fd1, w1) := RenderCallback_body globalCallbackRef fd status w in
  let '(fd2, w2) := RenderCallback_body globalCallbackRef fd1 status' w1 in
  javaCalls w2
  = javaCalls w
    ++ [mkJavaCall (clazz (classInfo w)) (invokeRenderCallback (classInfo w))
                   [holder_object globalCallbackRef; fd_ fd; status];
        mkJavaCall (clazz (classInfo w)) (invokeRenderCallback (classInfo w))
                   [holder_object globalCallbackRef; -1; status']]
  /\ fd_ fd2 = -1
  /\ openFds (unique_fd_destroy fd2 w2) = openFds w.
Proof.
  unfold RenderCallback_body, unique_fd_release, unique_fd_destroy,
    unique_fd_closes. simpl.
  split; [rewrite <- app_assoc; reflexivity |].
  split; [reflexivity |]. apply difference_empty_L.
Qed.

(** X14: what render hands to the sync-and-draw step differs from the
    world it was called in by the proxy's render parameters, the log and
    the global references only: the proxy keeps its root, its buffer and
    the light geometry and alphas set before, every other proxy and every
    root is as it was, and for an orientation with a label the log is
    unchanged. *)
Theorem render_frame env proxy p transform width height colorspacePtr
    consumer w :
  renderProxies w !! proxy = Some p ->
  consumer = nullptr \/ is_Some (env_GetJavaVM env) ->
  exists w3 p',
    android_graphics_HardwareBufferRenderer_render
      env proxy transform width height colorspacePtr consumer w
    = Ok (syncAndDrawFrame proxy w3)
    /\ renderProxies w3 !! proxy = Some p'
    /\ proxy_rootRenderNode p' = proxy_rootRenderNode p
    /\ proxy_hardwareBuffer p' = proxy_hardwareBuffer p
    /\ proxy_lightGeometry p' = proxy_lightGeometry p
    /\ proxy_lightAlpha p' = proxy_lightAlpha p
    /\ (forall other, other <> proxy ->
          renderProxies w3 !! other = renderProxies w !! other)
    /\ rootNodes w3 = rootNodes w
    /\ openFds w3 = openFds w
    /\ javaCalls w3 = javaCalls w
    /\ (valid_transform transform = true -> logcat w3 = logcat w).
Proof.
  intros Hp Hvm.
  destruct (createRenderCallback_returns env consumer
              (add_logs
                 (snd (createMatrixFromBufferTransform
                         (static_cast_SkScalar width)
                         (static_cast_SkScalar height) transform)) w) Hvm)
    as (callback & w2 & Hcb).
  eexists. eexists.
  split; [exact (render_runs _ _ _ _ _ _ _ _ _ _ _ Hp Hcb) |].
  apply createRenderCallback_frame in Hcb as (Hn & Hpx & Hfd & Hjc & Hlog & _).
  split; [simpl; apply lookup_insert_eq |].
  repeat (split; [reflexivity |]).
  split.
  { intros other Hne. simpl. rewrite lookup_insert_ne by congruence.
    rewrite Hpx. reflexivity. }
  split; [exact Hn |]. split; [exact Hfd |]. split; [exact Hjc |].
  intros Hv. simpl. rewrite Hlog. simpl.
  destruct (valid_transform_cases transform Hv) as [-> | [-> | [-> | ->]]];
    simpl; apply app_nil_r.
Qed.

End RenderMore.

(* ===================================================================== *)
(** * Sound worlds *)
(* ===================================================================== *)

Section WorldOk.

Context {C : Collaborators} {COk : CollaboratorsOk C}.

Lemma bound_to_insert node k x (m : gmap Z RenderProxy) :
  bound_to node (<[k := x]> m)
  = ((if decide (proxy_rootRenderNode x = node) then 1 else 0)
     + bound_to node (delete k m))%nat.
Proof.
  unfold bound_to. rewrite <- (insert_delete_eq m k x).
  rewrite map_filter_insert. simpl.
  destruct (decide (proxy_rootRenderNode x = node)) as [H | H].
  - rewrite map_size_insert_None; [reflexivity |].
    apply map_lookup_filter_None. left. apply lookup_delete_eq.
  - rewrite delete_id by apply lookup_delete_eq. reflexivity.
Qed.

Lemma bound_to_lookup node k y (m : gmap Z RenderProxy) :
  m !! k = Some y ->
  bound_to node m
  = ((if decide (proxy_rootRenderNode y = node) then 1 else 0)
     + bound_to node (delete k m))%nat.
Proof.
  intros H. rewrite <- (insert_id m k y H) at 1. apply bound_to_insert.
Qed.

Lemma bound_to_update node k x y (m : gmap Z RenderProxy) :
  m !! k = Some y ->
  proxy_rootRenderNode x = proxy_rootRenderNode y ->
  bound_to node (<[k := x]> m) = bound_to node m.
Proof.
  intros H Hr. rewrite bound_to_insert, (bound_to_lookup node k y m H), Hr.
  reflexivity.
Qed.

Lemma bound_to_fresh node k x (m : gmap Z RenderProxy) :
  m !! k = None ->
  bound_to node (<[k := x]> m)
  = ((if decide (proxy_rootRenderNode x = node) then 1 else 0)
     + bound_to node m)%nat.
Proof. intros H. rewrite bound_to_insert, (delete_id m k H). reflexivity. Qed.

(** A root no live proxy is bound to. *)
Lemma bound_to_zero node (m : gmap Z RenderProxy) :
  (forall k y, m !! k = Some y -> proxy_rootRenderNode y <> node) ->
  bound_to node m = 0%nat.
Proof.
  intros H. unfold bound_to. apply map_size_empty_iff. apply map_empty.
  intros k. apply map_lookup_filter_None.
  destruct (m !! k) as [y |] eqn:E; [right | left; reflexivity].
  intros x [= <-]. simpl. exact (H k y E).
Qed.

Lemma bound_to_zero_inv node (m : gmap Z RenderProxy) k y :
  bound_to node m = 0%nat -> m !! k = Some y -> proxy_rootRenderNode y <> node.
Proof.
  intros H0 Hk Hr. rewrite (bound_to_lookup node k y m Hk) in H0.
  destruct (decide (proxy_rootRenderNode y = node)); [discriminate | contradiction].
Qed.

(** The root of a live proxy is alive and strongly held. *)
Lemma world_ok_root w proxy p :
  world_ok w -> renderProxies w !! proxy = Some p ->
  exists n, rootNodes w !! proxy_rootRenderNode p = Some n
            /\ node_strong n <> 0%nat.
Proof.
  intros (_ & Hroot & Hcount) Hp.
  destruct (Hroot proxy p Hp) as [n Hn]. exists n. split; [exact Hn |].
  pose proof (Hcount _ n Hn) as Hle.
  rewrite (bound_to_lookup _ proxy p _ Hp) in Hle.
  destruct (decide (proxy_rootRenderNode p = proxy_rootRenderNode p));
    [simpl in Hle; lia | contradiction].
Qed.

Lemma world_ok_ext w w' :
  rootNodes w' = rootNodes w -> renderProxies w' = renderProxies w ->
  world_ok w -> world_ok w'.
Proof. unfold world_ok. intros -> ->. tauto. Qed.

(** Rewriting a proxy in place, with the same root. *)
Lemma world_ok_update w proxy p p' :
  world_ok w -> renderProxies w !! proxy = Some p ->
  proxy_rootRenderNode p' = proxy_rootRenderNode p ->
  world_ok (set_renderProxies (<[proxy := p']>) w).
Proof.
  intros (Hnull & Hroot & Hcount) Hp Hr. unfold world_ok. simpl.
  split; [| split].
  - destruct (decide (proxy = nullptr)) as [-> | Hne]; [congruence |].
    rewrite lookup_insert_ne by exact Hne. exact Hnull.
  - intros q y. destruct (decide (proxy = q)) as [<- | Hne].
    + rewrite lookup_insert_eq. intros [= <-]. rewrite Hr. exact (Hroot _ _ Hp).
    + rewrite lookup_insert_ne by exact Hne. apply Hroot.
  - intros node n Hn. rewrite (bound_to_update node proxy p' p _ Hp Hr).
    exact (Hcount node n Hn).
Qed.

(** Rewriting a root in place, without lowering its strong count. *)
Lemma world_ok_node_update w node n n' :
  world_ok w -> rootNodes w !! node = Some n ->
  (node_strong n <= node_strong n')%nat ->
  world_ok (set_rootNodes (<[node := n']>) w).
Proof.
  intros (Hnull & Hroot & Hcount) Hn Hle. unfold world_ok. simpl.
  split; [exact Hnull |]. split.
  - intros q y Hq. apply lookup_insert_is_Some'. right. exact (Hroot q y Hq).
  - intros node' m. destruct (decide (node = node')) as [<- | Hne].
    + rewrite lookup_insert_eq. intros [= <-].
      pose proof (Hcount node n Hn). lia.
    + rewrite lookup_insert_ne by exact Hne. apply Hcount.
Qed.

Lemma with_proxy_inv proxy f w w' :
  with_proxy proxy f w = Ok w' ->
  exists p, renderProxies w !! proxy = Some p
            /\ w' = set_renderProxies (<[proxy := f p]>) w.
Proof.
  unfold with_proxy. destruct (renderProxies w !! proxy) as [p |]; [| discriminate].
  intros [= <-]. exists p. split; reflexivity.
Qed.

Lemma world_ok_with_proxy proxy f w w' :
  (forall p, proxy_rootRenderNode (f p) = proxy_rootRenderNode p) ->
  world_ok w -> with_proxy proxy f w = Ok w' -> world_ok w'.
Proof.
  intros Hf Hok Hcall. apply with_proxy_inv in Hcall as (p & Hp & ->).
  exact (world_ok_update w proxy p (f p) Hok Hp (Hf p)).
Qed.

Lemma world_ok_createRootNode env w node w' :
  world_ok w ->
  android_graphics_HardwareBufferRenderer_createRootNode env w = Ok (node, w') ->
  world_ok w'.
Proof.
  intros (Hnull & Hroot & Hcount). rewrite createRootNode_runs.
  intros [= <- <-]. set (a := operator_new (live_addresses w)).
  assert (Hfresh : rootNodes w !! a = None).
  { apply not_elem_of_dom. intros Hin.
    apply (operator_new_fresh (live_addresses w)). fold a.
    unfold live_addresses. apply elem_of_union. left. exact Hin. }
  unfold world_ok. simpl. split; [exact Hnull |]. split.
  - intros q y Hq. apply lookup_insert_is_Some'. right. exact (Hroot q y Hq).
  - intros node' m. destruct (decide (a = node')) as [<- | Hne].
    + rewrite lookup_insert_eq. intros [= <-].
      rewrite bound_to_zero; [simpl; lia |].
      intros k y Hk Hr. destruct (Hroot k y Hk) as [n Hn].
      rewrite Hr in Hn. congruence.
    + rewrite lookup_insert_ne by exact Hne. apply Hcount.
Qed.

(** What [create] does on a live root. *)
Lemma create_runs buffer root n w :
  rootNodes w !! root = Some n ->
  android_graphics_HardwareBufferRenderer_create buffer root w
  = Ok (operator_new (live_addresses w),
        mkWorld (<[root := node_set_strong (S (node_strong n)) n]> (rootNodes w))
                (<[operator_new (live_addresses w) :=
                     mkRenderProxy root
                       (Some (AHardwareBuffer_fromHardwareBuffer buffer))
                       None None None]>
                   (renderProxies w))
                (globalRefs w) (openFds w) (javaCalls w) (logcat w)
                (classInfo w)).
Proof.
  intros Hn. unfold android_graphics_HardwareBufferRenderer_create.
  cbv zeta. unfold incStrong, with_node. rewrite Hn. simpl.
  assert (Hlive : live_addresses
                    (set_rootNodes
                       (<[root := node_set_strong (S (node_strong n)) n]>) w)
                  = live_addresses w).
  { unfold live_addresses. simpl. rewrite dom_insert_L.
    rewrite (subseteq_union_1_L {[root]} (dom (rootNodes w))); [reflexivity |].
    apply singleton_subseteq_l, elem_of_dom. eauto. }
  rewrite Hlive. unfold with_proxy. simpl. rewrite lookup_insert_eq. simpl.
  unfold set_renderProxies. simpl. rewrite insert_insert_eq. reflexivity.
Qed.

(** [create] returns on a live root only. *)
Lemma create_inv buffer root w proxy w' :
  android_graphics_HardwareBufferRenderer_create buffer root w = Ok (proxy, w') ->
  exists n, rootNodes w !! root = Some n.
Proof.
  unfold android_graphics_HardwareBufferRenderer_create. cbv zeta.
  unfold incStrong, with_node.
  destruct (rootNodes w !! root) as [n |]; [| discriminate].
  intros _. eauto.
Qed.

Lemma world_ok_create buffer root w proxy w' :
  world_ok w ->
  android_graphics_HardwareBufferRenderer_create buffer root w = Ok (proxy, w') ->
  world_ok w'.
Proof.
  intros (Hnull & Hroot & Hcount) Hcall.
  destruct (create_inv _ _ _ _ _ Hcall) as (n & Hn).
  rewrite (create_runs buffer root n w Hn) in Hcall.
  injection Hcall as <- <-. set (a := operator_new (live_addresses w)).
  assert (Hfresh : renderProxies w !! a = None).
  { apply not_elem_of_dom. intros Hin.
    apply (operator_new_fresh (live_addresses w)). fold a.
    unfold live_addresses. apply elem_of_union. right. exact Hin. }
  unfold world_ok. simpl. split; [| split].
  - rewrite lookup_insert_ne; [exact Hnull | apply operator_new_nonnull].
  - intros q y. destruct (decide (a = q)) as [<- | Hne].
    + rewrite lookup_insert_eq. intros [= <-]. simpl.
      rewrite lookup_insert_eq. eauto.
    + rewrite lookup_insert_ne by exact Hne. intros Hq.
      apply lookup_insert_is_Some'. right. exact (Hroot q y Hq).
  - intros node m. rewrite (bound_to_fresh node a _ _ Hfresh). simpl.
    destruct (decide (root = node)) as [<- | Hne].
    + rewrite lookup_insert_eq. intros [= <-]. simpl.
      pose proof (Hcount root n Hn). lia.
    + rewrite lookup_insert_ne by exact Hne. intros Hm.
      pose proof (Hcount node m Hm). simpl. lia.
Qed.

(** What [delete proxy] leaves of a sound world. *)
Lemma world_ok_destroy proxy w w' :
  world_ok w -> HardwareBufferRenderer_destroy proxy w = Ok w' -> world_ok w'.
Proof.
  intros Hok. unfold HardwareBufferRenderer_destroy.
  destruct (proxy =? nullptr); [intros [= <-]; exact Hok |].
  destruct (renderProxies w !! proxy) as [p |] eqn:Hp; [| discriminate].
  destruct (world_ok_root w proxy p Hok Hp) as (n & Hn & Hs).
  destruct Hok as (Hnull & Hroot & Hcount).
  unfold decStrong. simpl. rewrite Hn.
  assert (Hleft : forall node,
             bound_to node (renderProxies w)
             = ((if decide (proxy_rootRenderNode p = node) then 1 else 0)
                + bound_to node (delete proxy (renderProxies w)))%nat).
  { intros node. exact (bound_to_lookup node proxy p _ Hp). }
  destruct (node_strong n) as [| [| k]] eqn:Hk; [contradiction | |];
    intros [= <-]; unfold world_ok; simpl.
  - assert (Hnone : bound_to (proxy_rootRenderNode p)
                             (delete proxy (renderProxies w)) = 0%nat).
    { pose proof (Hcount _ n Hn) as Hle. rewrite Hleft, Hk in Hle.
      destruct (decide (proxy_rootRenderNode p = proxy_rootRenderNode p));
        [simpl in Hle; lia | contradiction]. }
    split; [| split].
    + apply lookup_delete_None. right. exact Hnull.
    + intros q y Hq.
      pose proof (bound_to_zero_inv _ _ q y Hnone Hq) as Hne.
      rewrite lookup_delete_ne by congruence.
      apply lookup_delete_Some in Hq as [_ Hq]. exact (Hroot q y Hq).
    + intros node m Hm. apply lookup_delete_Some in Hm as [Hne Hm].
      pose proof (Hcount node m Hm) as Hle. rewrite Hleft in Hle. lia.
  - split; [| split].
    + apply lookup_delete_None. right. exact Hnull.
    + intros q y Hq. apply lookup_delete_Some in Hq as [_ Hq].
      apply lookup_insert_is_Some'. right. exact (Hroot q y Hq).
    + intros node m. destruct (decide (proxy_rootRenderNode p = node)) as [<- | Hne].
      * rewrite lookup_insert_eq. intros [= <-]. simpl.
        pose proof (Hcount _ n Hn) as Hle. rewrite Hleft, Hk in Hle.
        destruct (decide (proxy_rootRenderNode p = proxy_rootRenderNode p));
          [simpl in Hle; lia | contradiction].
      * rewrite lookup_insert_ne by exact Hne. intros Hm.
        pose proof (Hcount node m Hm) as Hle. rewrite Hleft in Hle. lia.
Qed.

Lemma render_inv env proxy transform width height colorspacePtr consumer w r :
  android_graphics_HardwareBufferRenderer_render
    env proxy transform width height colorspacePtr consumer w = Ok r ->
  exists p w2 params,
    renderProxies w !! proxy = Some p
    /\ rootNodes w2 = rootNodes w
    /\ renderProxies w2 = renderProxies w
    /\ r = syncAndDrawFrame proxy
             (set_renderProxies
                (<[proxy := setHardwareBufferRenderParams params p]>) w2).
Proof.
  unfold android_graphics_HardwareBufferRenderer_render.
  destruct (createMatrixFromBufferTransform _ _ _) as [matrix logs].
  destruct (createRenderCallback env consumer (add_logs logs w))
    as [[callback w2] | |] eqn:Hcb; try discriminate.
  simpl. apply createRenderCallback_frame in Hcb as (Hn & Hpx & _).
  unfold with_proxy. rewrite Hpx. simpl.
  destruct (renderProxies w !! proxy) as [p |] eqn:Hp; [| discriminate].
  simpl. intros [= <-]. exists p, w2.
  eexists. repeat split; [exact Hn | exact Hpx].
Qed.

Lemma setLightAlpha_inv proxy ambient spot w w' :
  android_graphics_HardwareBufferRenderer_setLightAlpha proxy ambient spot w
  = Ok w' ->
  exists na ns, with_proxy proxy (setLightAlpha na ns) w = Ok w'.
Proof.
  unfold android_graphics_HardwareBufferRenderer_setLightAlpha.
  destruct (static_cast_uint8 (float_mul float_255 ambient)) as [na | |];
    try discriminate.
  destruct (static_cast_uint8 (float_mul float_255 spot)) as [ns | |];
    try discriminate.
  simpl. eauto.
Qed.

Section Steps.

Hypothesis syncAndDrawFrame_ok :
  forall proxy w, world_ok w -> world_ok (snd (syncAndDrawFrame proxy w)).

Lemma entry_step_keeps_ok w w' : world_ok w -> entry_step w w' -> world_ok w'.
Proof.
  intros Hok Hstep. destruct Hstep as
    [env w node w' H | buffer root w proxy w' H
    | env proxy transform width height cs consumer w status w' H
    | proxy x y z radius w w' H | proxy ambient spot w w' H | ptr w w' H].
  - exact (world_ok_createRootNode env w node w' Hok H).
  - exact (world_ok_create buffer root w proxy w' Hok H).
  - apply render_inv in H as (p & w2 & params & Hp & Hn & Hpx & Hr).
    assert (Hok2 : world_ok w2) by exact (world_ok_ext w w2 Hn Hpx Hok).
    rewrite <- Hpx in Hp.
    pose proof (world_ok_update w2 proxy p
                  (setHardwareBufferRenderParams params p) Hok2 Hp eq_refl) as Hok3.
    pose proof (syncAndDrawFrame_ok proxy _ Hok3) as Hok4.
    rewrite <- Hr in Hok4. exact Hok4.
  - exact (world_ok_with_proxy proxy (setLightGeometry x y z radius) w w'
             (fun _ => eq_refl) Hok H).
  - apply setLightAlpha_inv in H as (na & ns & H).
    exact (world_ok_with_proxy proxy (setLightAlpha na ns) w w'
             (fun _ => eq_refl) Hok H).
  - unfold call_finalizer in H. rewrite routine_at_getFinalizer in H.
    exact (world_ok_destroy ptr w w' Hok H).
Qed.

End Steps.

Lemma entry_steps_keep_ok w w' :
  (forall proxy w1, world_ok w1 -> world_ok (snd (syncAndDrawFrame proxy w1))) ->
  world_ok w -> rtc entry_step w w' -> world_ok w'.
Proof.
  intros Hsync Hok Hrtc. induction Hrtc as [w | w w1 w2 Hstep _ IH]; [exact Hok |].
  apply IH. exact (entry_step_keeps_ok Hsync w w1 Hok Hstep).
Qed.

Lemma world_ok_without_objects w :
  rootNodes w = ∅ -> renderProxies w = ∅ -> world_ok w.
Proof.
  intros Hnodes Hproxies. unfold world_ok. rewrite Hnodes, Hproxies.
  split; [apply lookup_empty |]. split.
  - intros proxy p Hp. rewrite lookup_empty in Hp. discriminate.
  - intros node n Hn. rewrite lookup_empty in Hn. discriminate.
Qed.

(** X15: every returning call of [createRootNode], [create], [render],
    [setLightGeometry], [setLightAlpha] and the finalizer keeps the world
    sound, provided the engine's sync-and-draw step does: from a world
    without native objects, any sequence of such calls, with any
    arguments, leads to a world where no proxy is at the null address,
    every live proxy is bound to a live root, and every root has at least
    as many strong references as proxies bound to it. *)
Theorem entry_points_keep_world_ok w0 w :
  (forall proxy w1, world_ok w1 -> world_ok (snd (syncAndDrawFrame proxy w1))) ->
  rootNodes w0 = ∅ -> renderProxies w0 = ∅ ->
  rtc entry_step w0 w ->
  world_ok w.
Proof.
  intros Hsync Hnodes Hproxies Hrtc.
  exact (entry_steps_keep_ok w0 w Hsync
           (world_ok_without_objects w0 Hnodes Hproxies) Hrtc).
Qed.

(** X16: in a sound world the finalizer is defined on every live proxy:
    it returns, the proxy is gone, the other proxies are as they were,
    and the world is still sound, so each of them still has a live root
    to be finalized against. *)
Theorem finalizer_defined_in_sound_world w proxy p :
  world_ok w ->
  renderProxies w !! proxy = Some p ->
  exists w',
    call_finalizer android_graphics_HardwareBufferRenderer_getFinalizer proxy w
    = Ok w'
    /\ renderProxies w' = delete proxy (renderProxies w)
    /\ world_ok w'
    /\ forall q y,
         q <> proxy -> renderProxies w !! q = Some y ->
         renderProxies w' !! q = Some y
         /\ exists n, rootNodes w' !! proxy_rootRenderNode y = Some n
                      /\ node_strong n <> 0%nat.
Proof.
  intros Hok Hp.
  assert (Hnull : proxy <> nullptr).
  { intros ->. destruct Hok as (H0 & _). congruence. }
  destruct (world_ok_root w proxy p Hok Hp) as (n & Hn & Hs).
  pose proof (destroy_live_proxy w proxy p n Hnull Hp Hn Hs) as Hd.
  eexists. split.
  { unfold call_finalizer. rewrite routine_at_getFinalizer. exact Hd. }
  split; [reflexivity |].
  pose proof (world_ok_destroy proxy w _ Hok Hd) as Hok'.
  split; [exact Hok' |].
  intros q y Hq Hy.
  assert (Hy' : delete proxy (renderProxies w) !! q = Some y)
    by (rewrite lookup_delete_ne by congruence; exact Hy).
  split; [exact Hy' |].
  exact (world_ok_root _ q y Hok' Hy').
Qed.

(** X17: on a live root [create] returns a handle that is not null and
    is the handle of no live root or proxy, the root among them; the new
    proxy is bound to that root and to the pointer the buffer resolver
    returned, whatever it is, null included (it is not tested), and has
    no render parameters and no light yet; the root has one strong
    reference more; every other proxy and root is as it was.  A root
    handle that is not live is undefined. *)
Theorem create_binds_root_and_buffer buffer root w :
  (forall n,
      rootNodes w !! root = Some n ->
      exists proxy w',
        android_graphics_HardwareBufferRenderer_create buffer root w
        = Ok (proxy, w')
        /\ proxy <> nullptr
        /\ (proxy ∉ live_addresses w)
        /\ proxy <> root
        /\ renderProxies w' !! proxy
           = Some (mkRenderProxy root
                     (Some (AHardwareBuffer_fromHardwareBuffer buffer))
                     None None None)
        /\ (forall q, q <> proxy -> renderProxies w' !! q = renderProxies w !! q)
        /\ rootNodes w' !! root = Some (node_set_strong (S (node_strong n)) n)
        /\ (forall other, other <> root ->
              rootNodes w' !! other = rootNodes w !! other))
  /\ (rootNodes w !! root = None ->
      android_graphics_HardwareBufferRenderer_create buffer root w = Undefined).
Proof.
  split.
  - intros n Hn. eexists. eexists.
    split; [exact (create_runs buffer root n w Hn) |].
    split; [apply operator_new_nonnull |].
    split; [apply operator_new_fresh |].
    split.
    { intros Heq. apply (operator_new_fresh (live_addresses w)).
      rewrite Heq. unfold live_addresses. apply elem_of_union. left.
      apply elem_of_dom. eauto. }
    split; [simpl; apply lookup_insert_eq |].
    split; [intros q Hq; simpl; apply lookup_insert_ne; congruence |].
    split; [simpl; apply lookup_insert_eq |].
    intros other Hne. simpl. apply lookup_insert_ne. congruence.
  - intros Hn. unfold android_graphics_HardwareBufferRenderer_create.
    cbv zeta. unfold incStrong, with_node. rewrite Hn. reflexivity.
Qed.

(** X18: a whole life: [createRootNode], then [create] on the new root
    with any buffer, then the finalizer on the new proxy.  Every step
    returns, the proxy and the root have different handles, and after
    the finalizer the world is the one [createRootNode] left, with the
    root alive on the reference [createRootNode] took. *)
Theorem root_outlives_its_proxy env buffer w :
  exists root w1 proxy w2,
    android_graphics_HardwareBufferRenderer_createRootNode env w = Ok (root, w1)
    /\ android_graphics_HardwareBufferRenderer_create buffer root w1
       = Ok (proxy, w2)
    /\ proxy <> root
    /\ renderProxies w2 !! proxy
       = Some (mkRenderProxy root
                 (Some (AHardwareBuffer_fromHardwareBuffer buffer))
                 None None None)
    /\ call_finalizer android_graphics_HardwareBufferRenderer_getFinalizer
                      proxy w2 = Ok w1
    /\ rootNodes w1 !! root = Some (fresh_root env)
    /\ renderProxies w1 = renderProxies w.
Proof.
  set (root := operator_new (live_addresses w)).
  set (w1 := set_rootNodes (<[root := fresh_root env]>) w).
  assert (Hroot : rootNodes w1 !! root = Some (fresh_root env))
    by (simpl; apply lookup_insert_eq).
  pose proof (create_runs buffer root (fresh_root env) w1 Hroot) as Hcreate.
  exists root, w1. eexists. eexists.
  split; [apply createRootNode_runs |].
  split; [exact Hcreate |].
  split.
  { intros Heq. apply (operator_new_fresh (live_addresses w1)).
    rewrite Heq. unfold live_addresses. apply elem_of_union. left.
    apply elem_of_dom. eauto. }
  split; [simpl; apply lookup_insert_eq |].
  split.
  { unfold call_finalizer. rewrite routine_at_getFinalizer.
    apply (create_then_destroy buffer root (fresh_root env) w1 _ _ Hroot);
      [simpl; lia | exact Hcreate]. }
  split; [exact Hroot | reflexivity].
Qed.

(** A call through a pointer that is not to a live proxy. *)
Lemma render_on_dead_proxy env proxy transform width height colorspacePtr
    consumer w :
  renderProxies w !! proxy = None ->
  consumer = nullptr \/ is_Some (env_GetJavaVM env) ->
  android_graphics_HardwareBufferRenderer_render
    env proxy transform width height colorspacePtr consumer w = Undefined.
Proof.
  intros Hp Hvm. unfold android_graphics_HardwareBufferRenderer_render.
  destruct (createMatrixFromBufferTransform _ _ _) as [matrix logs].
  destruct (createRenderCallback_returns env consumer (add_logs logs w) Hvm)
    as (callback & w2 & Hcb).
  rewrite Hcb. simpl.
  apply createRenderCallback_frame in Hcb as (_ & Hpx & _).
  unfold with_proxy. rewrite Hpx. simpl. rewrite Hp. reflexivity.
Qed.

(** X19: the handle of a destroyed proxy is dead.  Once the destroy
    routine has returned on a live proxy, no call on the same handle
    returns: a second destroy, every [setLightGeometry] and every
    [setLightAlpha] on it is undefined; a render call on it is undefined
    when it has no consumer or the VM can be had, and aborts on the
    missing VM otherwise.  The routine on the null handle does nothing. *)
Theorem destroyed_handle_is_dead w proxy p w' :
  proxy <> nullptr ->
  renderProxies w !! proxy = Some p ->
  HardwareBufferRenderer_destroy proxy w = Ok w' ->
  HardwareBufferRenderer_destroy proxy w' = Undefined
  /\ (forall env transform width height colorspacePtr consumer,
        (consumer = nullptr \/ is_Some (env_GetJavaVM env) ->
         android_graphics_HardwareBufferRenderer_render
           env proxy transform width height colorspacePtr consumer w'
         = Undefined)
        /\ (consumer <> nullptr -> env_GetJavaVM env = None ->
            android_graphics_HardwareBufferRenderer_render
              env proxy transform width height colorspacePtr consumer w'
            = Fatal "Unable to get Java VM")
        /\ (forall r,
              android_graphics_HardwareBufferRenderer_render
                env proxy transform width height colorspacePtr consumer w'
              <> Ok r))
  /\ (forall x y z radius,
        android_graphics_HardwareBufferRenderer_setLightGeometry
          proxy x y z radius w' = Undefined)
  /\ (forall ambient spot,
        android_graphics_HardwareBufferRenderer_setLightAlpha
          proxy ambient spot w' = Undefined)
  /\ HardwareBufferRenderer_destroy nullptr w' = Ok w'.
Proof.
  intros Hnull Hp Hd.
  assert (Hdead : renderProxies w' !! proxy = None).
  { unfold HardwareBufferRenderer_destroy in Hd.
    destruct (proxy =? nullptr) eqn:E; [apply Z.eqb_eq in E; contradiction |].
    rewrite Hp in Hd. unfold decStrong in Hd. simpl in Hd.
    destruct (rootNodes w !! proxy_rootRenderNode p) as [n |]; [| discriminate].
    destruct (node_strong n) as [| [| k]]; [discriminate | |];
      injection Hd as <-; simpl; apply lookup_delete_eq. }
  split.
  { unfold HardwareBufferRenderer_destroy.
    destruct (proxy =? nullptr) eqn:E; [apply Z.eqb_eq in E; contradiction |].
    rewrite Hdead. reflexivity. }
  split.
  { intros env transform width height colorspacePtr consumer.
    assert (Hundef : consumer = nullptr \/ is_Some (env_GetJavaVM env) ->
              android_graphics_HardwareBufferRenderer_render
                env proxy transform width height colorspacePtr consumer w'
              = Undefined).
    { intros Hvm.
      exact (render_on_dead_proxy env proxy transform width height
               colorspacePtr consumer w' Hdead Hvm). }
    assert (Hfatal : consumer <> nullptr -> env_GetJavaVM env = None ->
              android_graphics_HardwareBufferRenderer_render
                env proxy transform width height colorspacePtr consumer w'
              = Fatal "Unable to get Java VM").
    { intros Hne Hvm. unfold android_graphics_HardwareBufferRenderer_render.
      destruct (createMatrixFromBufferTransform _ _ _) as [matrix logs].
      rewrite (createRenderCallback_fatal env consumer _ Hne Hvm). reflexivity. }
    split; [exact Hundef |]. split; [exact Hfatal |].
    intros r Hr.
    destruct (Z.eq_dec consumer nullptr) as [E | E].
    - rewrite (Hundef (or_introl E)) in Hr. discriminate.
    - destruct (env_GetJavaVM env) as [vm |] eqn:Hvm.
      + rewrite Hundef in Hr; [discriminate | right; eauto].
      + rewrite (Hfatal E eq_refl) in Hr. discriminate. }
  split.
  { intros x y z radius.
    unfold android_graphics_HardwareBufferRenderer_setLightGeometry, with_proxy.
    rewrite Hdead. reflexivity. }
  split; [| reflexivity].
  intros ambient spot.
  unfold android_graphics_HardwareBufferRenderer_setLightAlpha.
  destruct (static_cast_uint8 (float_mul float_255 ambient)) as [na | m1 |] eqn:Ea;
    [| exfalso; exact (static_cast_uint8_not_fatal _ _ Ea) | reflexivity].
  destruct (static_cast_uint8 (float_mul float_255 spot)) as [ns | m2 |] eqn:Es;
    [| exfalso; exact (static_cast_uint8_not_fatal _ _ Es) | reflexivity].
  simpl. unfold with_proxy. rewrite Hdead. reflexivity.
Qed.

End WorldOk.

(* ===================================================================== *)
(** * The registration *)
(* ===================================================================== *)

Section RegistrationFacts.

Context {J : JniRuntime}.

(** X20: the table of native methods.  No name and no routine occurs
    twice, and the destroy routine is not in it (it is reached through
    the finalizer address only).  Every descriptor is well formed; its
    parameters are those the routine declares after [JNIEnv*] and the
    receiver, in number and in type, where a [jlong] handle may be
    declared as [jobject] (the proxy handle of the render and light
    routines is); its result is the declared one.  [nGetFinalizer] takes
    nothing and its routine declares no parameter at all. *)
Theorem gMethods_agree_with_routines :
  NoDup (map jni_name gMethods)
  /\ NoDup (map jni_fnPtr gMethods)
  /\ (routine_HardwareBufferRenderer_destroy ∉ map jni_fnPtr gMethods)
  /\ Forall
       (fun m =>
          exists ts result,
            parse_descriptor (jni_signature m) = Some (ts, result)
            /\ Forall2 parameter_agrees ts (drop 2 (c_parameters (jni_fnPtr m)))
            /\ result_agrees result (c_result (jni_fnPtr m)))
       gMethods
  /\ c_parameters routine_getFinalizer = [].
Proof.
  split; [refine (bool_decide_unpack _ _); vm_compute; exact I |].
  split; [refine (bool_decide_unpack _ _); vm_compute; exact I |].
  split; [refine (bool_decide_unpack _ _); vm_compute; exact I |].
  split; [| reflexivity].
  unfold gMethods.
  repeat (constructor;
          [eexists; eexists; split; [reflexivity |]; simpl; split;
           [repeat (constructor;
                    [first [left; reflexivity | right; split; reflexivity] |]);
            constructor
           | first [reflexivity | left; reflexivity | right; reflexivity]] |]).
  constructor.
Qed.

(** X21: the register function looks up the class and its callback
    method, records them, calls [HardwareBufferHelpers::init()] and then
    registers the natives on the class it looked up.  When the lookups
    succeed, the helper returns and the registration does not fail, it
    returns the result of the registration and the world the helper
    left; if the helper left the recorded class and method alone, every
    later invocation of a completion closure calls that method of that
    class with exactly the three arguments its descriptor declares: the
    consumer, the descriptor, the status.  A class or method that is not
    found, a helper that aborts, or a negative registration result,
    aborts. *)
Theorem register_sets_callback_target w :
  (forall cls method w2,
      FindClass "android/graphics/HardwareBufferRenderer" = Some cls ->
      GetStaticMethodID cls "invokeRenderCallback"
                        "(Ljava/util/function/Consumer;II)V" = Some method ->
      HardwareBufferHelpers_init (set_classInfo (mkClassInfo cls method) w)
      = Ok w2 ->
      0 <= registerNativeMethods kClassPathName gMethods 7 ->
      register_android_graphics_HardwareBufferRenderer w
      = Ok (registerNativeMethods kClassPathName gMethods 7, w2)
      /\ classInfo (set_classInfo (mkClassInfo cls method) w)
         = mkClassInfo cls method
      /\ (classInfo w2 = mkClassInfo cls method ->
          forall globalCallbackRef fd status,
            javaCalls (snd (RenderCallback_body globalCallbackRef fd status w2))
            = javaCalls w2
              ++ [mkJavaCall cls method
                             [holder_object globalCallbackRef; fd_ fd; status]]))
  /\ parse_descriptor "(Ljava/util/function/Consumer;II)V"
     = Some ([JObject "java/util/function/Consumer"; JInt; JInt], None)
  /\ kClassPathName = "android/graphics/HardwareBufferRenderer"
  /\ (FindClass "android/graphics/HardwareBufferRenderer" = None ->
      exists msg, register_android_graphics_HardwareBufferRenderer w = Fatal msg)
  /\ (forall cls,
        FindClass "android/graphics/HardwareBufferRenderer" = Some cls ->
        GetStaticMethodID cls "invokeRenderCallback"
                          "(Ljava/util/function/Consumer;II)V" = None ->
        exists msg, register_android_graphics_HardwareBufferRenderer w = Fatal msg)
  /\ (forall cls method msg,
        FindClass "android/graphics/HardwareBufferRenderer" = Some cls ->
        GetStaticMethodID cls "invokeRenderCallback"
                          "(Ljava/util/function/Consumer;II)V" = Some method ->
        HardwareBufferHelpers_init (set_classInfo (mkClassInfo cls method) w)
        = Fatal msg ->
        register_android_graphics_HardwareBufferRenderer w = Fatal msg)
  /\ (forall cls method w2,
        FindClass "android/graphics/HardwareBufferRenderer" = Some cls ->
        GetStaticMethodID cls "invokeRenderCallback"
                          "(Ljava/util/function/Consumer;II)V" = Some method ->
        HardwareBufferHelpers_init (set_classInfo (mkClassInfo cls method) w)
        = Ok w2 ->
        registerNativeMethods kClassPathName gMethods 7 < 0 ->
        exists msg, register_android_graphics_HardwareBufferRenderer w = Fatal msg).
Proof.
  unfold register_android_graphics_HardwareBufferRenderer.
  change (length gMethods) with 7%nat.
  split; [| split; [reflexivity | split; [reflexivity |
           split; [| split; [| split]]]]].
  - intros cls method w2 Hc Hm Hinit Hres. rewrite Hc, Hm. cbv zeta.
    rewrite Hinit. simpl.
    assert (Hlt : (registerNativeMethods kClassPathName gMethods 7 <? 0) = false)
      by (apply Z.ltb_ge; exact Hres).
    rewrite Hlt. split; [reflexivity |]. split; [reflexivity |].
    intros Hinfo holder fd status.
    unfold RenderCallback_body, unique_fd_release. simpl.
    rewrite Hinfo. reflexivity.
  - intros Hc. rewrite Hc. eauto.
  - intros cls Hc Hm. rewrite Hc, Hm. eauto.
  - intros cls method msg Hc Hm Hinit. rewrite Hc, Hm. cbv zeta.
    rewrite Hinit. reflexivity.
  - intros cls method w2 Hc Hm Hinit Hres. rewrite Hc, Hm. cbv zeta.
    rewrite Hinit. simpl. apply Z.ltb_lt in Hres. rewrite Hres. eauto.
Qed.

End RegistrationFacts.

(* ===================================================================== *)
(** * The further properties at concrete inputs *)
(* ===================================================================== *)

Lemma sample_engine_keeps_ok :
  forall proxy w,
    world_ok w ->
    world_ok (snd (syncAndDrawFrame (Collaborators := sample_collaborators) proxy w)).
Proof. intros proxy w Hok. exact Hok. Qed.

(** The sample session, step by step. *)
Lemma sample_session_steps :
  rtc (entry_step (C := sample_collaborators)) empty_world sample_world.
Proof.
  apply (rtc_l _ _ sample_root_world).
  - apply (step_createRootNode (C := sample_collaborators)
             sample_env empty_world 1 sample_root_world).
    vm_compute. reflexivity.
  - apply rtc_once.
    apply (step_create (C := sample_collaborators)
             500 1 sample_root_world 2 sample_world).
    vm_compute. reflexivity.
Qed.

Lemma sample_world_ok : world_ok sample_world.
Proof.
  apply (entry_steps_keep_ok (C := sample_collaborators)
           (COk := sample_collaborators_ok) empty_world sample_world).
  - exact sample_engine_keeps_ok.
  - apply world_ok_without_objects; reflexivity.
  - exact sample_session_steps.
Qed.

Lemma createMatrix_ignores_height_witness :
  ANATIVEWINDOW_TRANSFORM_ROTATE_270 <> ANATIVEWINDOW_TRANSFORM_ROTATE_180
  /\ createMatrixFromBufferTransform 100 200 ANATIVEWINDOW_TRANSFORM_ROTATE_270
     = createMatrixFromBufferTransform 100 999 ANATIVEWINDOW_TRANSFORM_ROTATE_270.
Proof.
  split; [discriminate |].
  apply (createMatrix_ignores_height 100 200 999
           ANATIVEWINDOW_TRANSFORM_ROTATE_270).
  discriminate.
Defined.

Lemma square_buffer_maps_content_onto_buffer_witness :
  valid_transform ANATIVEWINDOW_TRANSFORM_ROTATE_270 = true
  /\ maps_content_onto_buffer 100 100 ANATIVEWINDOW_TRANSFORM_ROTATE_270.
Proof.
  split; [reflexivity |].
  apply (square_buffer_maps_content_onto_buffer
           100 ANATIVEWINDOW_TRANSFORM_ROTATE_270).
  reflexivity.
Defined.

Lemma setLightAlpha_out_of_range_witness :
  renderProxies sample_world !! sample_proxy = Some sample_proxy_state
  /\ android_graphics_HardwareBufferRenderer_setLightAlpha
       sample_proxy (float_of 128 (-8)) (float_of 258 (-8)) sample_world
     = Undefined.
Proof.
  split; [vm_compute; reflexivity |].
  apply (setLightAlpha_out_of_range sample_world sample_proxy sample_proxy_state);
    [vm_compute; reflexivity | lia | lia | lia].
Defined.

Lemma stored_alpha_monotone_witness :
  0 <= 128 <= 255 /\ 255 <= 256
  /\ exists na nb,
       static_cast_uint8 (float_mul float_255 (float_of 128 (-8))) = Ok na
       /\ static_cast_uint8 (float_mul float_255 (float_of 255 (-8))) = Ok nb
       /\ na <= nb.
Proof.
  split; [lia |]. split; [lia |].
  destruct (stored_alpha_monotone 128 255) as (na & nb & Ha & Hb & Hle & _);
    [lia | lia |].
  exists na, nb. split; [exact Ha |]. split; [exact Hb | exact Hle].
Defined.

Lemma static_cast_SkScalar_exact_witness :
  - 2 ^ 24 < 1080 < 2 ^ 24 /\ - 2 ^ 24 < 2400 < 2 ^ 24
  /\ static_cast_SkScalar 1080 = 1080.
Proof.
  split; [lia |]. split; [lia |].
  apply (static_cast_SkScalar_exact 1080 2400 ANATIVEWINDOW_TRANSFORM_ROTATE_90);
    lia.
Defined.

Lemma createRenderCallback_takes_fresh_reference_witness :
  CollaboratorsOk sample_collaborators
  /\ 9 <> nullptr
  /\ env_GetJavaVM sample_env = Some 77
  /\ exists ref w',
       createRenderCallback (C := sample_collaborators) sample_env 9 sample_world
       = Ok (RenderCallback_closure (mkJGlobalRefHolder 77 ref), w')
       /\ globalRefs w' !! ref = Some 9.
Proof.
  split; [exact sample_collaborators_ok |].
  split; [discriminate |]. split; [reflexivity |].
  destruct (createRenderCallback_takes_fresh_reference
              (C := sample_collaborators) (COk := sample_collaborators_ok)
              sample_env 77 9 sample_world)
    as (ref & w' & Hcall & _ & Href & _); [discriminate | reflexivity |].
  exists ref, w'. split; [exact Hcall | exact Href].
Defined.

Lemma render_aborts_without_vm_witness :
  9 <> nullptr
  /\ env_GetJavaVM (mkJNIEnv None) = None
  /\ android_graphics_HardwareBufferRenderer_render
       (C := sample_collaborators) (mkJNIEnv None) sample_proxy
       ANATIVEWINDOW_TRANSFORM_IDENTITY 100 200 5 9 sample_world
     = Fatal "Unable to get Java VM".
Proof.
  split; [discriminate |]. split; [reflexivity |].
  apply (render_aborts_without_vm (C := sample_collaborators));
    [discriminate | reflexivity].
Defined.

Lemma render_frame_witness :
  renderProxies sample_world !! sample_proxy = Some sample_proxy_state
  /\ (nullptr = nullptr \/ is_Some (env_GetJavaVM sample_env))
  /\ exists w3 p',
       android_graphics_HardwareBufferRenderer_render
         (C := sample_collaborators) sample_env sample_proxy
         ANATIVEWINDOW_TRANSFORM_ROTATE_180 100 200 5 nullptr sample_world
       = Ok (syncAndDrawFrame (Collaborators := sample_collaborators)
               sample_proxy w3)
       /\ renderProxies w3 !! sample_proxy = Some p'
       /\ proxy_hardwareBuffer p' = proxy_hardwareBuffer sample_proxy_state.
Proof.
  split; [vm_compute; reflexivity |]. split; [left; reflexivity |].
  destruct (render_frame (C := sample_collaborators) sample_env sample_proxy
              sample_proxy_state ANATIVEWINDOW_TRANSFORM_ROTATE_180 100 200 5
              nullptr sample_world)
    as (w3 & p' & Hcall & Hp' & _ & Hbuf & _);
    [vm_compute; reflexivity | left; reflexivity |].
  exists w3, p'. split; [exact Hcall |]. split; [exact Hp' | exact Hbuf].
Defined.

Lemma entry_points_keep_world_ok_witness :
  CollaboratorsOk sample_collaborators
  /\ rootNodes empty_world = ∅ /\ renderProxies empty_world = ∅
  /\ rtc (entry_step (C := sample_collaborators)) empty_world sample_world
  /\ world_ok sample_world.
Proof.
  split; [exact sample_collaborators_ok |].
  split; [reflexivity |]. split; [reflexivity |].
  split; [exact sample_session_steps |].
  apply (entry_points_keep_world_ok (C := sample_collaborators)
           (COk := sample_collaborators_ok) empty_world sample_world).
  - exact sample_engine_keeps_ok.
  - reflexivity.
  - reflexivity.
  - exact sample_session_steps.
Defined.

Lemma finalizer_defined_in_sound_world_witness :
  CollaboratorsOk sample_collaborators
  /\ world_ok sample_world
  /\ renderProxies sample_world !! sample_proxy = Some sample_proxy_state
  /\ exists w',
       call_finalizer (C := sample_collaborators)
         (android_graphics_HardwareBufferRenderer_getFinalizer
            (C := sample_collaborators)) sample_proxy sample_world = Ok w'
       /\ world_ok w'.
Proof.
  split; [exact sample_collaborators_ok |].
  split; [exact sample_world_ok |].
  split; [vm_compute; reflexivity |].
  destruct (finalizer_defined_in_sound_world
              (C := sample_collaborators) (COk := sample_collaborators_ok)
              sample_world sample_proxy sample_proxy_state)
    as (w' & Hcall & _ & Hok & _);
    [exact sample_world_ok | vm_compute; reflexivity |].
  exists w'. split; [exact Hcall | exact Hok].
Defined.

Lemma create_binds_root_and_buffer_witness :
  CollaboratorsOk sample_collaborators
  /\ exists proxy w',
       android_graphics_HardwareBufferRenderer_create
         (C := sample_collaborators) nullptr 1 sample_root_world = Ok (proxy, w')
       /\ proxy <> 1
       /\ renderProxies w' !! proxy
          = Some (mkRenderProxy 1 (Some nullptr) None None None).
Proof.
  split; [exact sample_collaborators_ok |].
  destruct (proj1 (create_binds_root_and_buffer
                     (C := sample_collaborators) (COk := sample_collaborators_ok)
                     nullptr 1 sample_root_world) (fresh_root sample_env))
    as (proxy & w' & Hcall & _ & _ & Hne & Hp & _);
    [vm_compute; reflexivity |].
  exists proxy, w'. split; [exact Hcall |]. split; [exact Hne | exact Hp].
Defined.

Lemma root_outlives_its_proxy_witness :
  CollaboratorsOk sample_collaborators
  /\ exists root w1 proxy w2,
       android_graphics_HardwareBufferRenderer_createRootNode
         (C := sample_collaborators) sample_env empty_world = Ok (root, w1)
       /\ android_graphics_HardwareBufferRenderer_create
            (C := sample_collaborators) 500 root w1 = Ok (proxy, w2)
       /\ call_finalizer (C := sample_collaborators)
            (android_graphics_HardwareBufferRenderer_getFinalizer
               (C := sample_collaborators)) proxy w2 = Ok w1.
Proof.
  split; [exact sample_collaborators_ok |].
  destruct (root_outlives_its_proxy
              (C := sample_collaborators) (COk := sample_collaborators_ok)
              sample_env 500 empty_world)
    as (root & w1 & proxy & w2 & H1 & H2 & _ & _ & H3 & _).
  exists root, w1, proxy, w2. split; [exact H1 |]. split; [exact H2 | exact H3].
Defined.

Lemma destroyed_handle_is_dead_witness :
  sample_proxy <> nullptr
  /\ renderProxies sample_world !! sample_proxy = Some sample_proxy_state
  /\ HardwareBufferRenderer_destroy sample_proxy sample_world
     = Ok sample_root_world
  /\ HardwareBufferRenderer_destroy sample_proxy sample_root_world = Undefined.
Proof.
  split; [vm_compute; discriminate |].
  split; [vm_compute; reflexivity |].
  split; [vm_compute; reflexivity |].
  apply (destroyed_handle_is_dead (C := sample_collaborators)
           sample_world sample_proxy sample_proxy_state sample_root_world);
    [vm_compute; discriminate | vm_compute; reflexivity | vm_compute; reflexivity].
Defined.

(* ===================================================================== *)
(** * The whole content rectangle *)
(* ===================================================================== *)

Section WholeRectangle.

Lemma in_rect_iff a b (p : SkPoint) :
  in_rect a b p = true <-> 0 <= fst p <= a /\ 0 <= snd p <= b.
Proof.
  unfold in_rect. rewrite !andb_true_iff, !Z.leb_le. tauto.
Qed.

(** X22: for IDENTITY, ROTATE_90 and ROTATE_180 the matrix carries the
    whole content rectangle onto the whole buffer, not its corners only:
    every point of the content lands in [0,width] x [0,height], and every
    point of the buffer is the image of a point of the content. *)
Theorem content_fills_buffer width height transform :
  transform = ANATIVEWINDOW_TRANSFORM_IDENTITY
  \/ transform = ANATIVEWINDOW_TRANSFORM_ROTATE_90
  \/ transform = ANATIVEWINDOW_TRANSFORM_ROTATE_180 ->
  (forall p,
      in_rect (fst (logical_size width height transform))
              (snd (logical_size width height transform)) p = true ->
      in_rect width height
              (mapXY (fst (createMatrixFromBufferTransform width height transform))
                     p) = true)
  /\ (forall q,
        in_rect width height q = true ->
        exists p,
          in_rect (fst (logical_size width height transform))
                  (snd (logical_size width height transform)) p = true
          /\ mapXY (fst (createMatrixFromBufferTransform width height transform))
                   p = q).
Proof.
  intros [-> | [-> | ->]]; split.
  - intros [x y]. rewrite mapXY_identity. exact id.
  - intros q Hq. exists q. split; [exact Hq | apply mapXY_identity].
  - intros [x y]. rewrite createMatrix_rotate_90_point, !in_rect_iff. simpl. lia.
  - intros [x y] Hq. exists (y, width - x).
    rewrite createMatrix_rotate_90_point. rewrite in_rect_iff in Hq |- *.
    simpl in *. split; [lia | f_equal; lia].
  - intros [x y]. rewrite createMatrix_rotate_180_point, !in_rect_iff. simpl. lia.
  - intros [x y] Hq. exists (width - x, height - y).
    rewrite createMatrix_rotate_180_point. rewrite in_rect_iff in Hq |- *.
    simpl in *. split; [lia | f_equal; lia].
Qed.

End WholeRectangle.

Lemma content_fills_buffer_witness :
  (ANATIVEWINDOW_TRANSFORM_ROTATE_90 = ANATIVEWINDOW_TRANSFORM_IDENTITY
   \/ ANATIVEWINDOW_TRANSFORM_ROTATE_90 = ANATIVEWINDOW_TRANSFORM_ROTATE_90
   \/ ANATIVEWINDOW_TRANSFORM_ROTATE_90 = ANATIVEWINDOW_TRANSFORM_ROTATE_180)
  /\ in_rect 100 200
       (mapXY (fst (createMatrixFromBufferTransform
                      100 200 ANATIVEWINDOW_TRANSFORM_ROTATE_90)) (150, 30))
     = true.
Proof.
  split; [right; left; reflexivity |].
  apply (proj1 (content_fills_buffer 100 200 ANATIVEWINDOW_TRANSFORM_ROTATE_90
                  (or_intror (or_introl eq_refl))) (150, 30)).
  reflexivity.
Defined.
